(** * konek/rest: negotiation and dispatch layer over httprouter

    A shallow embedding of [error.go] and [router.go] (the revision that
    carries cookies, redirects and the raw content-type bypass, and the
    first revision of [Parse] beside the current one), followed by the
    properties of the request/response pipeline.

    Conventions of the embedding:
    - Go [int] is [Z]; the three format constants keep their [iota] values.
    - [http.Header] and the cookie map are [gmap string _].
    - An [interface{}] value is a tagged union of the package's own types
      and of a caller type [U] whose method set is given by [Methods U];
      a type assertion [x.(I)] is a function to [option].
    - [http.ResponseWriter] is a recorder threaded through the calls.
    - [encoding/json], [encoding/xml], [net/http] and [reflect] are the
      environment ([Codec], [Decoder], [MapRange]). *)

From Stdlib Require Import ZArith String Ascii List.
From Stdlib.Strings Require Import Byte.
From stdpp Require Import base option list gmap strings fin_maps.

Local Open Scope Z_scope.
Local Open Scope string_scope.

(** ** error.go *)

(** [type Error500 struct { Message string }] *)
Record Error500 : Type := { Message : string }.

Definition NewError500 : Error500 :=
  {| Message := "an unexpected error occured, please contact an administrator" |}.

Definition Error500_Error (e : Error500) : string := Message e.

Definition Error500_StatusCode (e : Error500) : Z := 500.

(** ** router.go: constants and plain data *)

Definition formatJSON : Z := 0.
Definition formatXML : Z := 1.
Definition formatFORM : Z := 2.

(** [httprouter.Params] is a slice of key/value pairs; [Params] wraps it. *)
Record Params : Type := { httprouter_Params : list (string * string) }.

(** [type CookieSetter struct { Cookies map[string]string }]; [None] is the
    nil map. *)
Record CookieSetter : Type := { Cookies : option (gmap string string) }.

Definition SetCookie (cs : CookieSetter) (name value : string) : CookieSetter :=
  let m := match Cookies cs with None => ∅ | Some m => m end in
  {| Cookies := Some (<[name := value]> m) |}.

Definition UnsetCookie (cs : CookieSetter) (name : string) : CookieSetter :=
  let m := match Cookies cs with None => ∅ | Some m => m end in
  {| Cookies := Some (<[name := EmptyString]> m) |}.

Definition GetCookies (cs : CookieSetter) : option (gmap string string) := Cookies cs.

(** [type Redirect struct { CookieSetter; location string; code int }] *)
Record Redirect : Type :=
  { Redirect_CookieSetter : CookieSetter; location : string; code : Z }.

Definition MakeRedirect (code : Z) (location : string) : Redirect :=
  {| Redirect_CookieSetter := {| Cookies := None |};
     location := location; code := code |}.

Definition Redirect_StatusCode (r : Redirect) : Z := code r.
Definition Redirect_Location (r : Redirect) : string := location r.

(** ** Interface values *)

(** The methods a caller-defined type may carry, by name.  A method that
    the type does not have is [None]; [u_Error] is only read on values
    returned as [error].  Methods are functions of the value: calling one
    twice gives the same result. *)
Class Methods (U : Type) : Type := {
  u_Error : U → string;
  u_StatusCode : U → option Z;
  u_Location : U → option string;
  u_GetCookies : U → option (option (gmap string string));
  u_ContentType : U → option string;
  u_Data : U → option (list byte);
  u_Parent : U → option string
}.

(** A value of type [interface{}] (or [error]): nil, one of the package's
    own types, the [*errorString] of [errors.New], or a caller value. *)
Inductive iface (U : Type) : Type :=
  | inil
  | IError500 (e : Error500)
  | IerrorString (s : string)
  | ICookies (cs : CookieSetter)
  | IRedirect (rd : Redirect)
  | IUser (u : U).

Arguments inil {U}.
Arguments IError500 {U} e.
Arguments IerrorString {U} s.
Arguments ICookies {U} cs.
Arguments IRedirect {U} rd.
Arguments IUser {U} u.

Section MethodSets.
Context {U : Type} `{Methods U}.

Definition is_nil (v : iface U) : bool :=
  match v with inil => true | _ => false end.

Definition Error_of (v : iface U) : string :=
  match v with
  | IError500 e => Error500_Error e
  | IerrorString s => s
  | IUser u => u_Error u
  | _ => EmptyString
  end.

Definition StatusCode_of (v : iface U) : option Z :=
  match v with
  | IError500 e => Some (Error500_StatusCode e)
  | IRedirect rd => Some (Redirect_StatusCode rd)
  | IUser u => u_StatusCode u
  | _ => None
  end.

Definition Location_of (v : iface U) : option string :=
  match v with
  | IRedirect rd => Some (Redirect_Location rd)
  | IUser u => u_Location u
  | _ => None
  end.

Definition GetCookies_of (v : iface U) : option (option (gmap string string)) :=
  match v with
  | ICookies cs => Some (GetCookies cs)
  | IRedirect rd => Some (GetCookies (Redirect_CookieSetter rd))
  | IUser u => u_GetCookies u
  | _ => None
  end.

Definition ContentType_of (v : iface U) : option string :=
  match v with IUser u => u_ContentType u | _ => None end.

Definition Data_of (v : iface U) : option (list byte) :=
  match v with IUser u => u_Data u | _ => None end.

Definition Parent_of (v : iface U) : option string :=
  match v with IUser u => u_Parent u | _ => None end.

(** [err.(Error)]: [type Error interface { StatusCode() int }]; the
    result is what [StatusCode()] returns. *)
Definition as_Error (v : iface U) : option Z := StatusCode_of v.

(** [resp.(Resp)]: both [StatusCode() int] and [Location() string]. *)
Definition as_Resp (v : iface U) : option (Z * string) :=
  match StatusCode_of v, Location_of v with
  | Some c, Some l => Some (c, l)
  | _, _ => None
  end.

(** [resp.(ICookieSetter)] *)
Definition as_ICookieSetter (v : iface U) : option (option (gmap string string)) :=
  GetCookies_of v.

(** [resp.(RespCType)]: both [ContentType() string] and [Data() []byte]. *)
Definition as_RespCType (v : iface U) : option (string * list byte) :=
  match ContentType_of v, Data_of v with
  | Some c, Some d => Some (c, d)
  | _, _ => None
  end.

(** Modelled from the spec: the declaration of [ErrorTransparent] is not
    among the sources.  Section 4.3 describes it as exposing the parent
    cause of an error, logged for diagnostics only; the assertion
    succeeds on values with a [Parent] method and yields its rendering. *)
Definition as_ErrorTransparent (v : iface U) : option string := Parent_of v.
End MethodSets.

(** ** Requests and the format negotiator *)

(** [r.Header], and what draining [r.Body] with [ioutil.ReadAll] gives:
    the bytes read and the read error, if any. *)
Record Request : Type := {
  Header : gmap string (list string);
  Body : list byte * option string
}.

Definition ioutil_ReadAll (r : Request) : list byte * option string := Body r.

Fixpoint getFormat_loop (header : list string) : Z * bool :=
  match header with
  | [] => (formatJSON, false)
  | format :: rest =>
      if String.eqb format "application/json" then (formatJSON, true)
      else if String.eqb format "application/xml" then (formatXML, true)
      else if String.eqb format "application/x-www-form-urlencoded" then (formatFORM, true)
      else getFormat_loop rest
  end.

Definition getFormat (r : Request) (field : string) : Z * bool :=
  match Header r !! field with
  | Some header => getFormat_loop header
  | None => (formatJSON, false)
  end.

(** ** The response writer *)

(** [http.Cookie], the fields the package sets. *)
Record Cookie : Type := {
  Name : string;
  Value : string;
  Path : string;
  MaxAge : Z
}.

(** An [http.ResponseWriter] as a recorder: the header map, the cookies
    handed to [http.SetCookie] in call order (rendering each one to a
    [Set-Cookie] line is [net/http]'s), the status passed to the first
    [WriteHeader], and the bytes written. *)
Record ResponseWriter : Type := {
  rw_header : gmap string (list string);
  rw_cookies : list Cookie;
  rw_status : option Z;
  rw_body : list byte
}.

Definition Header_Set (w : ResponseWriter) (key value : string) : ResponseWriter :=
  {| rw_header := <[key := [value]]> (rw_header w);
     rw_cookies := rw_cookies w; rw_status := rw_status w; rw_body := rw_body w |}.

Definition Header_Add (w : ResponseWriter) (key value : string) : ResponseWriter :=
  {| rw_header := <[key := (default [] (rw_header w !! key) ++ [value])%list]> (rw_header w);
     rw_cookies := rw_cookies w; rw_status := rw_status w; rw_body := rw_body w |}.

Definition http_SetCookie (w : ResponseWriter) (c : Cookie) : ResponseWriter :=
  {| rw_header := rw_header w;
     rw_cookies := (rw_cookies w ++ [c])%list; rw_status := rw_status w; rw_body := rw_body w |}.

(** Only the first [WriteHeader] counts.  The recorder keeps the code it is
    given; which codes the server accepts is [net/http]'s concern. *)
Definition WriteHeader (w : ResponseWriter) (code : Z) : ResponseWriter :=
  match rw_status w with
  | Some _ => w
  | None =>
      {| rw_header := rw_header w; rw_cookies := rw_cookies w;
         rw_status := Some code; rw_body := rw_body w |}
  end.

(** [w.Write]: an implicit [WriteHeader(200)] when none was made, then the
    bytes.  A transport failure is not modelled: the package only logs it. *)
Definition ResponseWriter_Write (w : ResponseWriter) (chunk : list byte) : ResponseWriter :=
  let w := WriteHeader w 200 in
  {| rw_header := rw_header w; rw_cookies := rw_cookies w;
     rw_status := rw_status w; rw_body := (rw_body w ++ chunk)%list |}.

(** The status the client receives: [net/http] sends 200 when the handler
    returns without a [WriteHeader]. *)
Definition status_sent (w : ResponseWriter) : Z := default 200 (rw_status w).

(** A writer as the server hands it to a handler: nothing written yet. *)
Definition unwritten (w : ResponseWriter) : Prop :=
  rw_status w = None ∧ rw_body w = [] ∧ rw_cookies w = [].

Definition NewWriter : ResponseWriter :=
  {| rw_header := ∅; rw_cookies := []; rw_status := None; rw_body := [] |}.

(** ** The environment *)

(** [json.Marshal] and [xml.Marshal]: the bytes, or the error's text. *)
Class Codec (U : Type) : Type := {
  json_Marshal : iface U → list byte + string;
  xml_Marshal : iface U → list byte + string
}.

(** The order in which a [range] over a map visits its entries: Go leaves it
    unspecified, every entry is visited once. *)
Record MapRange : Type := {
  range_of : ∀ A : Type, gmap string A → list (string * A);
  range_perm : ∀ (A : Type) (m : gmap string A), range_of A m ≡ₚ map_to_list m
}.

Arguments range_of _ {A} _.

(** ** Writing a response *)

Section Dispatch.
Context {U : Type} `{Methods U} `{Codec U}.
Variable order : MapRange.

Definition outputContentType (w : ResponseWriter) (code : Z) (data : list byte)
    (format : string) : ResponseWriter * option string :=
  let w := Header_Set w "Content-Type" format in
  let w := WriteHeader w code in
  let w := ResponseWriter_Write w data in
  (w, None).

Definition output (w : ResponseWriter) (code : Z) (data : iface U) (format : Z)
    : ResponseWriter * option string :=
  let marshalled :=
    if (format =? formatJSON)%Z then
      Some (json_Marshal data, Header_Set w "Content-Type" "aplication/json")
    else if (format =? formatXML)%Z then
      Some (xml_Marshal data, Header_Set w "Content-Type" "aplication/xml")
    else None in
  match marshalled with
  | None => (w, Some "unknown output format")
  | Some (inr err, w) => (w, Some err)
  | Some (inl chunk, w) =>
      let w := WriteHeader w code in
      let w := ResponseWriter_Write w chunk in
      (w, None)
  end.

(** [type Controller func(r *http.Request, p Params) (interface{}, error)];
    the second component is nil or a value with an [Error] method. *)
Definition Controller : Type := Request → Params → iface U * iface U.

(** One turn of the loop over the cookie map (lines 459-475). *)
Definition emit_cookie (cookies : gmap string string) (w : ResponseWriter)
    (name : string) : ResponseWriter :=
  if (String.length (cookies !!! name) =? 0)%nat then
    http_SetCookie w {| Name := name; Value := "nil"; Path := "/"; MaxAge := -1 |}
  else
    http_SetCookie w {| Name := name; Value := cookies !!! name; Path := "/";
                        MaxAge := 24 * 60 * 60 |}.

Definition log_write_failure (what : string) (err : option string) : list string :=
  match err with
  | Some e => [what ++ " " ++ e]
  | None => []
  end.

(** The closure returned by [handler(fn)], with the log lines it prints. *)
Definition handler (fn : Controller) (w : ResponseWriter) (r : Request)
    (p : list (string * string)) : ResponseWriter * list string :=
  let '(outputFormat, _) := getFormat r "Accept" in
  let '(resp, err) := fn r {| httprouter_Params := p |} in
  if negb (is_nil err) then
    let logged :=
      match as_ErrorTransparent err with
      | Some parent => ["error: " ++ Error_of err ++ ", " ++ parent]
      | None => ["error: " ++ Error_of err]
      end in
    match as_Error err with
    | Some status =>
        let '(w, err3) := output w status err outputFormat in
        (w, (logged ++ log_write_failure "error while writing error:" err3)%list)
    | None =>
        let '(w, err2) := output w 500 (IError500 NewError500) outputFormat in
        (w, (logged ++ log_write_failure "error while writing error:" err2)%list)
    end
  else
    let '(statusCode, location) :=
      match as_Resp resp with
      | Some (c, l) => if negb (c =? 0)%Z then (c, l) else (200, EmptyString)
      | None => (200, EmptyString)
      end in
    let w :=
      match as_ICookieSetter resp with
      | Some (Some cookies) =>
          foldl (emit_cookie cookies) w (range_of order cookies).*1
      | _ => w
      end in
    let w := if negb (String.eqb location EmptyString) then Header_Add w "Location" location else w in
    let '(w, err) :=
      match as_RespCType resp with
      | Some (ctype, data) => outputContentType w statusCode data ctype
      | None => output w statusCode resp outputFormat
      end in
    (w, log_write_failure "error while writing data:" err).
End Dispatch.

(** ** Decoding a request body *)

(** [json.Unmarshal] and [xml.Unmarshal] on a target of type [T] (the new
    target and the error's text, if any), [r.ParseForm()] (the resulting
    [r.PostForm] and the error), and the [reflect] calls of [parseForm]. *)
Class Decoder (T : Type) : Type := {
  json_Unmarshal : list byte → T → T * option string;
  xml_Unmarshal : list byte → T → T * option string;
  Request_ParseForm : Request → gmap string (list string) * option string;
  reflect_Value : Type;
  (** [t.Kind() == reflect.Ptr && !val.IsNil()] *)
  reflect_is_pointer : T → bool;
  strings_ToLower : string → string;
  FieldByNameFunc : T → (string → bool) → reflect_Value;
  (** [field.Kind() == reflect.String] *)
  Kind_is_String : reflect_Value → bool;
  SetString : reflect_Value → string → T → T
}.

Section Decode.
Context {U T : Type} `{Decoder T}.
Variable order : MapRange.

Definition parseForm_step (val : T) (entry : string * list string) : T :=
  let '(k, v) := entry in
  match v with
  | [] => val
  | v0 :: _ =>
      let field :=
        FieldByNameFunc val
          (fun s => String.eqb (strings_ToLower k) (strings_ToLower s)) in
      if Kind_is_String field then SetString field v0 val else val
  end.

Definition parseForm (form : gmap string (list string)) (v : T) : T * option string :=
  if negb (reflect_is_pointer v) then
    (v, Some "Cannot parse form to non-pointer types")
  else
    (foldl parseForm_step v (range_of order form), None).

(** Lines 373-376: what [Parse] returns for the value of the function's
    own [err] variable. *)
Definition Parse_return (v : T) (err : option string) : T * iface U :=
  match err with
  | Some e => (v, IError500 {| Message := "failed to parse body: " ++ e |})
  | None => (v, inil)
  end.

(** Lines 340 and 351-376: the body of [Parse] once [inputFormat] is
    known.  In the JSON and XML branches [chunk, err := ...] declares a
    second [err], local to the branch, and the unmarshal result is
    assigned to that one ([err_block] below); the test of line 373 reads
    the [err] of line 340, which those branches never assign. *)
Definition Parse_decode (inputFormat : Z) (r : Request) (v : T) : T * iface U :=
  let err : option string := None in
  if (inputFormat =? formatJSON)%Z then
    let '(chunk, err_block) := ioutil_ReadAll r in
    match err_block with
    | Some _ => (v, IError500 {| Message := "failed to read body" |})
    | None =>
        let '(v, err_block) := json_Unmarshal chunk v in
        Parse_return v err
    end
  else if (inputFormat =? formatXML)%Z then
    let '(chunk, err_block) := ioutil_ReadAll r in
    match err_block with
    | Some _ => (v, IError500 {| Message := "failed to read body" |})
    | None =>
        let '(v, err_block) := xml_Unmarshal chunk v in
        Parse_return v err
    end
  else if (inputFormat =? formatFORM)%Z then
    let '(PostForm, err) := Request_ParseForm r in
    let '(v, err) :=
      match err with
      | None => parseForm PostForm v
      | Some _ => (v, err)
      end in
    Parse_return v err
  else (v, IerrorString "unknown output format").

(** Lines 342-349: the decode format, with the fallback to the format
    negotiated from [Accept]. *)
Definition Parse_inputFormat (r : Request) : Z :=
  let '(outputFormat, _) := getFormat r "Accept" in
  let '(inputFormat, found) := getFormat r "Content-Type" in
  if negb found then outputFormat else inputFormat.

(** [Parse(r, v)]: the target after the call and the returned error. *)
Definition Parse (r : Request) (v : T) : T * iface U :=
  Parse_decode (Parse_inputFormat r) r v.
End Decode.

(** ** The first revision of the negotiator and of [Parse]

    JSON and XML only; an unrecognized [Content-Type] is rejected, and the
    body is read once, before the branch on the format. *)
Module Rev0.
Section Decode.
Context {U T : Type} `{Decoder T}.

Fixpoint getFormat_loop (header : list string) : Z * bool :=
  match header with
  | [] => (formatJSON, false)
  | format :: rest =>
      if String.eqb format "application/json" then (formatJSON, true)
      else if String.eqb format "application/xml" then (formatXML, true)
      else getFormat_loop rest
  end.

Definition getFormat (r : Request) (field : string) : Z * bool :=
  match Header r !! field with
  | Some header => getFormat_loop header
  | None => (formatJSON, false)
  end.

Definition Parse (r : Request) (v : T) : T * iface U :=
  let '(outputFormat, _) := getFormat r "Accept" in
  let '(inputFormat, found) := getFormat r "Content-Type" in
  let unsupported :=
    if negb found then
      match Header r !! "Content-Type" with
      | Some (h0 :: _) => Some h0
      | _ => None
      end
    else None in
  match unsupported with
  | Some h0 => (v, IError500 {| Message := "unsupported Content-Type: " ++ h0 |})
  | None =>
      let inputFormat := if negb found then outputFormat else inputFormat in
      let '(chunk, err) := ioutil_ReadAll r in
      match err with
      | Some _ => (v, IError500 {| Message := "failed to read body" |})
      | None =>
          if (inputFormat =? formatJSON)%Z then
            let '(v, err) := json_Unmarshal chunk v in
            Parse_return v err
          else if (inputFormat =? formatXML)%Z then
            let '(v, err) := xml_Unmarshal chunk v in
            Parse_return v err
          else (v, IerrorString "unknown output format")
      end
  end.
End Decode.
End Rev0.

(** ** Vocabulary of the properties *)

Definition recognized (s : string) : bool :=
  String.eqb s "application/json" || String.eqb s "application/xml"
  || String.eqb s "application/x-www-form-urlencoded".

(** No value under [field] is one of the three MIME strings (the header
    may also be absent). *)
Definition no_recognized_value (r : Request) (field : string) : Prop :=
  ∀ header, Header r !! field = Some header → Forall (λ s, recognized s = false) header.

Definition format_of_mime (s : string) : Z :=
  if String.eqb s "application/json" then formatJSON
  else if String.eqb s "application/xml" then formatXML
  else formatFORM.

Section Vocabulary.
Context {U : Type} `{Methods U} `{Codec U}.
Variable order : MapRange.

(** [chunk] is what the codec produces for [data] in [format]; only JSON
    and XML have a serialization. *)
Definition serializes (format : Z) (data : iface U) (chunk : list byte) : Prop :=
  (format = formatJSON ∧ json_Marshal data = inl chunk)
  ∨ (format = formatXML ∧ xml_Marshal data = inl chunk).

(** Lines 448-455: the status and the location taken from the value. *)
Definition shaped_status (resp : iface U) : Z :=
  match as_Resp resp with
  | Some (c, _) => if (c =? 0)%Z then 200 else c
  | None => 200
  end.

Definition shaped_location (resp : iface U) : string :=
  match as_Resp resp with
  | Some (c, l) => if (c =? 0)%Z then EmptyString else l
  | None => EmptyString
  end.

(** The cookie that one turn of the loop hands to [http.SetCookie]. *)
Definition cookie_for (cookies : gmap string string) (name : string) : Cookie :=
  if (String.length (cookies !!! name) =? 0)%nat then
    {| Name := name; Value := "nil"; Path := "/"; MaxAge := -1 |}
  else
    {| Name := name; Value := cookies !!! name; Path := "/"; MaxAge := 86400 |}.

(** Lines 456-480: the writer after the cookies and the [Location] header. *)
Definition shaped_writer (resp : iface U) (w : ResponseWriter) : ResponseWriter :=
  let w :=
    match as_ICookieSetter resp with
    | Some (Some cookies) => foldl (emit_cookie cookies) w (range_of order cookies).*1
    | _ => w
    end in
  if negb (String.eqb (shaped_location resp) EmptyString)
  then Header_Add w "Location" (shaped_location resp) else w.

(** The cookies the loop emits for a value, in the order of the range. *)
Definition emitted_cookies (resp : iface U) : list Cookie :=
  match as_ICookieSetter resp with
  | Some (Some cookies) => cookie_for cookies <$> (range_of order cookies).*1
  | _ => []
  end.
End Vocabulary.

(** ** A concrete caller: test/main.go and a download type

    [TestRet] is the type of test/main.go; [Download] is a caller type that
    embeds [Redirect] and adds the raw content-type methods.  The codecs
    below are stand-ins for [encoding/json] and [encoding/xml], enough to
    run the pipeline on examples. *)
Module Sample.
Record TestRet : Type := { Status : string; Code : Z }.

Definition TestRet_StatusCode (t : TestRet) : Z := Code t.
Definition TestRet_Error (t : TestRet) : string := Status t.

Record Download : Type := {
  dl_Redirect : Redirect;
  dl_ContentType : string;
  dl_Data : list byte
}.

Inductive Caller : Type :=
  | CTestRet (t : TestRet)
  | CDownload (d : Download).

#[export] Instance Caller_Methods : Methods Caller := {|
  u_Error c := match c with CTestRet t => TestRet_Error t | _ => EmptyString end;
  u_StatusCode c :=
    match c with
    | CTestRet t => Some (TestRet_StatusCode t)
    | CDownload d => Some (Redirect_StatusCode (dl_Redirect d))
    end;
  u_Location c :=
    match c with
    | CTestRet _ => None
    | CDownload d => Some (Redirect_Location (dl_Redirect d))
    end;
  u_GetCookies c :=
    match c with
    | CTestRet _ => None
    | CDownload d => Some (GetCookies (Redirect_CookieSetter (dl_Redirect d)))
    end;
  u_ContentType c :=
    match c with CTestRet _ => None | CDownload d => Some (dl_ContentType d) end;
  u_Data c :=
    match c with CTestRet _ => None | CDownload d => Some (dl_Data d) end;
  u_Parent _ := None
|}.

Definition quote : string := String "034"%char EmptyString.

Definition field (name value : string) : string :=
  quote ++ name ++ quote ++ ":" ++ quote ++ value ++ quote.

Definition element (name value : string) : string :=
  "<" ++ name ++ ">" ++ value ++ "</" ++ name ++ ">".

Definition render_json (v : iface Caller) : string :=
  match v with
  | IError500 e => "{" ++ field "Message" (Message e) ++ "}"
  | IUser (CTestRet t) => "{" ++ field "Status" (Status t) ++ "}"
  | inil => "null"
  | _ => "{}"
  end.

Definition render_xml (v : iface Caller) : string :=
  match v with
  | IError500 e => element "Error500" (element "Message" (Message e))
  | IUser (CTestRet t) => element "TestRet" (element "Status" (Status t))
  | _ => EmptyString
  end.

#[export] Instance Caller_Codec : Codec Caller := {|
  json_Marshal v := inl (list_byte_of_string (render_json v));
  xml_Marshal v := inl (list_byte_of_string (render_xml v))
|}.

(** A decoder that rejects the empty document, as both standard decoders
    do, and otherwise leaves the target alone. *)
#[export] Instance TestRet_Decoder : Decoder TestRet := {|
  json_Unmarshal chunk v :=
    match chunk with
    | [] => (v, Some "unexpected end of JSON input")
    | _ => (v, None)
    end;
  xml_Unmarshal chunk v :=
    match chunk with
    | [] => (v, Some "EOF")
    | _ => (v, None)
    end;
  Request_ParseForm r := (∅, None);
  reflect_Value := unit;
  reflect_is_pointer _ := true;
  strings_ToLower s := s;
  FieldByNameFunc _ _ := tt;
  Kind_is_String _ := false;
  SetString _ _ v := v
|}.

Definition sorted_range : MapRange :=
  {| range_of A m := map_to_list m;
     range_perm A m := Permutation_refl (map_to_list m) |}.

Definition request (accept contentType : list string) (body : list byte) : Request :=
  {| Header :=
       (if decide (accept = []) then ∅ else {[ "Accept" := accept ]}) ∪
       (if decide (contentType = []) then ∅ else {[ "Content-Type" := contentType ]});
     Body := (body, None) |}.

(** [testfunc] and [test2func] of test/main.go. *)
Definition testfunc : @Controller Caller :=
  fun r p => (IUser (CTestRet {| Status := "ok"; Code := 200 |}), inil).

Definition test2func : @Controller Caller :=
  fun r p =>
    let data := {| Status := EmptyString; Code := 0 |} in
    let '(data, err) := Parse sorted_range r data in
    if negb (is_nil err) then (inil, err)
    else (inil, IUser (CTestRet {| Status := "oops"; Code := 403 |})).

(** Values and requests used in the examples. *)
Definition empty_target : TestRet := {| Status := EmptyString; Code := 0 |}.

Definition oops : iface Caller := IUser (CTestRet {| Status := "oops"; Code := 403 |}).

Definition fail_with (err : iface Caller) : @Controller Caller :=
  fun r p => (inil, err).

Definition reply (resp : iface Caller) : @Controller Caller :=
  fun r p => (resp, inil).

Definition session_cookies : gmap string string :=
  <["old" := EmptyString]> (<["sid" := "abc"]> ∅).

(** A redirect that sets one cookie and unsets another. *)
Definition moved : Redirect :=
  {| Redirect_CookieSetter :=
       UnsetCookie (SetCookie {| Cookies := None |} "sid" "abc") "old";
     location := "/next"; code := 302 |}.

Definition hello : Download :=
  {| dl_Redirect := moved; dl_ContentType := "text/plain";
     dl_Data := list_byte_of_string "hello" |}.

Definition json_request : Request := request ["application/json"] [] [].
Definition xml_only_request : Request := request ["application/xml"] [] [].
Definition form_accept_request : Request :=
  request ["application/x-www-form-urlencoded"; "application/json"] [] [].
Definition malformed_json_request : Request := request [] ["application/json"] [].

Definition generic_body (message : string) : list byte :=
  list_byte_of_string (render_json (IError500 {| Message := message |})).
End Sample.

(** ** The handler of the revision before cookies, redirects and raw bodies

    Lines 144-171: [Resp] is [interface { StatusCode() int }] there, and the
    status it returns is passed on unchecked. *)
Module Rev1.
Section Dispatch.
Context {U : Type} `{Methods U} `{Codec U}.

Definition handler (fn : Controller) (w : ResponseWriter) (r : Request)
    (p : list (string * string)) : ResponseWriter * list string :=
  let '(outputFormat, _) := getFormat r "Accept" in
  let '(resp, err) := fn r {| httprouter_Params := p |} in
  if negb (is_nil err) then
    match as_Error err with
    | Some status =>
        let '(w, err3) := output w status err outputFormat in
        (w, log_write_failure "error while writing error:" err3)
    | None =>
        let '(w, err2) := output w 500 (IError500 NewError500) outputFormat in
        (w, log_write_failure "error while writing error:" err2)
    end
  else
    let statusCode :=
      match StatusCode_of resp with
      | Some c => c
      | None => 200
      end in
    let '(w, err) := output w statusCode resp outputFormat in
    (w, log_write_failure "error while writing data:" err).
End Dispatch.
End Rev1.

(** ** A struct target for the form decoder

    A flat struct behind a pointer (or a non-pointer), with string and int
    fields, and the [reflect] calls of [parseForm] on it: a field is found
    when exactly one name satisfies the match.  [ParseForm] is a stand-in
    that yields a fixed form around the body. *)
Module Fixtures.
Import Sample.

Inductive field_value : Type :=
  | FString (s : string)
  | FInt (z : Z).

Record target : Type := {
  is_pointer : bool;
  fields : list (string * field_value)
}.

Definition lower_ascii (c : ascii) : ascii :=
  let n := nat_of_ascii c in
  if ((65 <=? n) && (n <=? 90))%nat then ascii_of_nat (n + 32) else c.

Fixpoint lower (s : string) : string :=
  match s with
  | EmptyString => EmptyString
  | String c rest => String (lower_ascii c) (lower rest)
  end.

Definition field_by_name_func (val : target) (f : string → bool)
    : option (string * field_value) :=
  match List.filter (λ fld, f fld.1) (fields val) with
  | [fld] => Some fld
  | _ => None
  end.

Definition kind_is_string (field : option (string * field_value)) : bool :=
  match field with
  | Some (_, FString _) => true
  | _ => false
  end.

Definition set_string (field : option (string * field_value)) (s : string)
    (val : target) : target :=
  match field with
  | Some (name, _) =>
      {| is_pointer := is_pointer val;
         fields := List.map (λ fld, if String.eqb fld.1 name then (name, FString s) else fld)
                     (fields val) |}
  | None => val
  end.

#[export] Instance target_Decoder : Decoder target := {|
  json_Unmarshal chunk v :=
    match chunk with
    | [] => (v, Some "unexpected end of JSON input")
    | _ => (v, None)
    end;
  xml_Unmarshal chunk v :=
    match chunk with
    | [] => (v, Some "EOF")
    | _ => (v, None)
    end;
  Request_ParseForm r :=
    (<["STATUS" := [string_of_list_byte (Body r).1; "second"]]>
       (<["code" := ["7"]]> (<["none" := []]> ∅)), None);
  reflect_Value := option (string * field_value);
  reflect_is_pointer := is_pointer;
  strings_ToLower := lower;
  FieldByNameFunc := field_by_name_func;
  Kind_is_String := kind_is_string;
  SetString := set_string
|}.

Definition record_ptr : target :=
  {| is_pointer := true;
     fields := [("Status", FString EmptyString); ("Code", FInt 0)] |}.

Definition record_value : target :=
  {| is_pointer := false;
     fields := [("Status", FString EmptyString); ("Code", FInt 0)] |}.

Definition form_request : Request :=
  request [] ["application/x-www-form-urlencoded"] (list_byte_of_string "open").

(** A request whose body cannot be read. *)
Definition broken_request : Request :=
  {| Header := {[ "Content-Type" := ["application/json"] ]};
     Body := ([], Some "unexpected EOF") |}.

(** [test2func] of test/main.go, for any decoder and range order. *)
Definition test2func_on (D : Decoder TestRet) (order : MapRange) : @Controller Caller :=
  fun r p =>
    let data := {| Status := EmptyString; Code := 0 |} in
    let '(data, err) := @Parse Caller TestRet D order r data in
    if negb (is_nil err) then (inil, err)
    else (inil, IUser (CTestRet {| Status := "oops"; Code := 403 |})).

(** A value with a [StatusCode] method only, as [TestRet] is. *)
Definition not_found : iface Caller :=
  IUser (CTestRet {| Status := "missing"; Code := 404 |}).
End Fixtures.

(** * Properties *)

(** ** The negotiator *)

Lemma getFormat_loop_find (header : list string) :
  getFormat_loop header =
  match List.find recognized header with
  | Some s => (format_of_mime s, true)
  | None => (formatJSON, false)
  end.
Proof.
  induction header as [|s rest IH]; [reflexivity|].
  cbn [getFormat_loop List.find]. unfold recognized at 1.
  destruct (String.eqb s "application/json") eqn:Ej;
    [by cbn; unfold format_of_mime; rewrite Ej|].
  destruct (String.eqb s "application/xml") eqn:Ex;
    [by cbn; unfold format_of_mime; rewrite Ej, Ex|].
  destruct (String.eqb s "application/x-www-form-urlencoded") eqn:Ef;
    [by cbn; unfold format_of_mime; rewrite Ej, Ex|].
  exact IH.
Qed.

Lemma format_of_mime_FORM (s : string) :
  recognized s = true →
  format_of_mime s = formatFORM ↔ s = "application/x-www-form-urlencoded".
Proof.
  unfold recognized, format_of_mime. intros Hrec.
  destruct (String.eqb s "application/json") eqn:Ej.
  { apply String.eqb_eq in Ej. subst s. split; discriminate. }
  destruct (String.eqb s "application/xml") eqn:Ex.
  { apply String.eqb_eq in Ex. subst s. split; discriminate. }
  destruct (String.eqb s "application/x-www-form-urlencoded") eqn:Ef.
  { apply String.eqb_eq in Ef. subst s. split; reflexivity. }
  discriminate Hrec.
Qed.

Lemma getFormat_range (r : Request) (field : string) :
  (getFormat r field).1 = formatJSON ∨ (getFormat r field).1 = formatXML
  ∨ (getFormat r field).1 = formatFORM.
Proof.
  unfold getFormat. destruct (Header r !! field) as [header|]; [|by left].
  rewrite getFormat_loop_find. destruct (List.find recognized header) as [s|]; [|by left].
  cbn. unfold format_of_mime.
  destruct (String.eqb s "application/json"); [by left|].
  destruct (String.eqb s "application/xml"); [by right; left|by right; right].
Qed.

Lemma getFormat_not_found (r : Request) (field : string) :
  no_recognized_value r field → getFormat r field = (formatJSON, false).
Proof.
  unfold no_recognized_value, getFormat. intros Hno.
  destruct (Header r !! field) as [header|]; [|reflexivity].
  specialize (Hno header eq_refl).
  induction Hno as [|s rest Hs _ IH]; [reflexivity|].
  cbn [getFormat_loop]. unfold recognized in Hs.
  destruct (String.eqb s "application/json"); [discriminate|].
  destruct (String.eqb s "application/xml"); [discriminate|].
  destruct (String.eqb s "application/x-www-form-urlencoded"); [discriminate|].
  exact IH.
Qed.

Lemma getFormat_found_false (r : Request) (field : string) :
  (getFormat r field).2 = false → (getFormat r field).1 = formatJSON.
Proof.
  unfold getFormat. destruct (Header r !! field) as [header|]; [|reflexivity].
  rewrite getFormat_loop_find. by destruct (List.find recognized header).
Qed.

(** ** The writer *)

Lemma WriteHeader_status (w : ResponseWriter) (code : Z) :
  rw_status (WriteHeader w code) = Some (default code (rw_status w)).
Proof. unfold WriteHeader. by destruct (rw_status w) eqn:E; cbn; rewrite ?E. Qed.

Lemma WriteHeader_header (w : ResponseWriter) (code : Z) :
  rw_header (WriteHeader w code) = rw_header w.
Proof. unfold WriteHeader. by destruct (rw_status w) eqn:E; cbn; rewrite ?E. Qed.

Lemma WriteHeader_cookies (w : ResponseWriter) (code : Z) :
  rw_cookies (WriteHeader w code) = rw_cookies w.
Proof. unfold WriteHeader. by destruct (rw_status w) eqn:E; cbn; rewrite ?E. Qed.

Lemma WriteHeader_body (w : ResponseWriter) (code : Z) :
  rw_body (WriteHeader w code) = rw_body w.
Proof. unfold WriteHeader. by destruct (rw_status w) eqn:E; cbn; rewrite ?E. Qed.

Lemma Write_status (w : ResponseWriter) (chunk : list byte) :
  rw_status (ResponseWriter_Write w chunk) = Some (default 200 (rw_status w)).
Proof. unfold ResponseWriter_Write. cbn. apply WriteHeader_status. Qed.

Lemma Write_header (w : ResponseWriter) (chunk : list byte) :
  rw_header (ResponseWriter_Write w chunk) = rw_header w.
Proof. unfold ResponseWriter_Write. cbn. apply WriteHeader_header. Qed.

Lemma Write_cookies (w : ResponseWriter) (chunk : list byte) :
  rw_cookies (ResponseWriter_Write w chunk) = rw_cookies w.
Proof. unfold ResponseWriter_Write. cbn. apply WriteHeader_cookies. Qed.

Lemma Write_body (w : ResponseWriter) (chunk : list byte) :
  rw_body (ResponseWriter_Write w chunk) = (rw_body w ++ chunk)%list.
Proof. unfold ResponseWriter_Write. cbn. by rewrite WriteHeader_body. Qed.

Create Rewrite HintDb writer.
#[export] Hint Rewrite WriteHeader_status WriteHeader_header WriteHeader_cookies
  WriteHeader_body Write_status Write_header Write_cookies Write_body : writer.

Section DispatchFacts.
Context {U : Type} `{Methods U} `{Codec U}.

Lemma output_FORM (w : ResponseWriter) (code : Z) (data : iface U) :
  output w code data formatFORM = (w, Some "unknown output format").
Proof. reflexivity. Qed.

(** The three ways [output] ends: the format is rejected, the codec
    fails after the [Content-Type] header is set, or the response is
    written. *)
Lemma output_cases (w : ResponseWriter) (code : Z) (data : iface U) (format : Z) :
  (format ≠ formatJSON ∧ format ≠ formatXML
   ∧ output w code data format = (w, Some "unknown output format"))
  ∨ (∃ ctype e, output w code data format = (Header_Set w "Content-Type" ctype, Some e))
  ∨ (∃ ctype chunk,
       serializes format data chunk
       ∧ output w code data format =
         (ResponseWriter_Write (WriteHeader (Header_Set w "Content-Type" ctype) code) chunk,
          None)).
Proof.
  unfold output, serializes.
  destruct (Z.eqb_spec format formatJSON) as [->|Hj].
  { destruct (json_Marshal data) as [chunk|e] eqn:Hm; right; [right|left]; eauto 8. }
  destruct (Z.eqb_spec format formatXML) as [->|Hx].
  { destruct (xml_Marshal data) as [chunk|e] eqn:Hm; right; [right|left]; eauto 8. }
  left. done.
Qed.

Lemma output_serialized (w : ResponseWriter) (code : Z) (data : iface U)
    (format : Z) (chunk : list byte) :
  serializes format data chunk →
  ∃ ctype,
    output w code data format =
    (ResponseWriter_Write (WriteHeader (Header_Set w "Content-Type" ctype) code) chunk,
     None).
Proof.
  intros [[-> Hm]|[-> Hm]]; unfold output; cbn; rewrite Hm; eauto.
Qed.

Lemma output_status (w : ResponseWriter) (code : Z) (data : iface U)
    (format : Z) (chunk : list byte) :
  rw_status w = None → serializes format data chunk →
  rw_status (output w code data format).1 = Some code
  ∧ rw_body (output w code data format).1 = (rw_body w ++ chunk)%list.
Proof.
  intros Hw Hser. destruct (output_serialized w code data format chunk Hser) as [ct ->].
  cbn [fst]. autorewrite with writer. cbn. by rewrite Hw.
Qed.

Lemma output_cookies (w : ResponseWriter) (code : Z) (data : iface U) (format : Z) :
  rw_cookies (output w code data format).1 = rw_cookies w.
Proof.
  destruct (output_cases w code data format)
    as [(_ & _ & ->)|[(ct & e & ->)|(ct & chunk & _ & ->)]];
    cbn [fst]; autorewrite with writer; reflexivity.
Qed.

(** [output] passes no status other than [code] to the writer. *)
Lemma output_status_cases (w : ResponseWriter) (code : Z) (data : iface U) (format : Z) :
  rw_status w = None →
  rw_status (output w code data format).1 = Some code
  ∨ rw_status (output w code data format).1 = None.
Proof.
  intros Hw.
  destruct (output_cases w code data format)
    as [(_ & _ & ->)|[(ct & e & ->)|(ct & chunk & _ & ->)]];
    cbn [fst]; autorewrite with writer; cbn; rewrite ?Hw; auto.
Qed.

Lemma output_headers (w : ResponseWriter) (code : Z) (data : iface U) (format : Z) :
  delete "Content-Type" (rw_header (output w code data format).1)
  = delete "Content-Type" (rw_header w).
Proof.
  destruct (output_cases w code data format)
    as [(_ & _ & ->)|[(ct & e & ->)|(ct & chunk & _ & ->)]];
    cbn [fst]; autorewrite with writer; cbn; rewrite ?delete_insert_eq; reflexivity.
Qed.

Lemma output_header_lookup (w : ResponseWriter) (code : Z) (data : iface U) (format : Z)
    (key : string) :
  key ≠ "Content-Type" →
  rw_header (output w code data format).1 !! key = rw_header w !! key.
Proof.
  intros Hne.
  rewrite <- (lookup_delete_ne (rw_header (output w code data format).1) "Content-Type" key)
    by done.
  rewrite output_headers. by apply lookup_delete_ne.
Qed.
End DispatchFacts.

(** ** The dispatch adapter *)

Section HandlerFacts.
Context {U : Type} `{Methods U} `{Codec U}.
Variable order : MapRange.

Lemma emit_cookie_cookie_for (cookies : gmap string string) (w : ResponseWriter)
    (name : string) :
  emit_cookie cookies w name = http_SetCookie w (cookie_for cookies name).
Proof.
  unfold emit_cookie, cookie_for.
  by destruct (String.length (cookies !!! name) =? 0)%nat.
Qed.

Lemma foldl_emit_cookie (cookies : gmap string string) (names : list string)
    (w : ResponseWriter) :
  foldl (emit_cookie cookies) w names =
  {| rw_header := rw_header w;
     rw_cookies := (rw_cookies w ++ (cookie_for cookies <$> names))%list;
     rw_status := rw_status w; rw_body := rw_body w |}.
Proof.
  revert w. induction names as [|name names IH]; intros w.
  - cbn. rewrite app_nil_r. by destruct w.
  - cbn [foldl fmap list_fmap]. rewrite IH, emit_cookie_cookie_for. cbn.
    by rewrite <- app_assoc.
Qed.

Lemma shaped_writer_status (resp : iface U) (w : ResponseWriter) :
  rw_status (shaped_writer order resp w) = rw_status w.
Proof.
  unfold shaped_writer.
  destruct (negb _); destruct (as_ICookieSetter resp) as [[cookies|]|];
    rewrite ?foldl_emit_cookie; reflexivity.
Qed.

Lemma shaped_writer_body (resp : iface U) (w : ResponseWriter) :
  rw_body (shaped_writer order resp w) = rw_body w.
Proof.
  unfold shaped_writer.
  destruct (negb _); destruct (as_ICookieSetter resp) as [[cookies|]|];
    rewrite ?foldl_emit_cookie; reflexivity.
Qed.

Lemma shaped_writer_cookies (resp : iface U) (w : ResponseWriter) :
  rw_cookies (shaped_writer order resp w) = (rw_cookies w ++ emitted_cookies order resp)%list.
Proof.
  unfold shaped_writer, emitted_cookies.
  destruct (negb _); destruct (as_ICookieSetter resp) as [[cookies|]|];
    rewrite ?foldl_emit_cookie; cbn; rewrite ?app_nil_r; reflexivity.
Qed.

(** The error path (lines 429-447). *)
Lemma handler_error (fn : Controller) (w : ResponseWriter) (r : Request)
    (p : list (string * string)) (resp err : iface U) :
  fn r {| httprouter_Params := p |} = (resp, err) →
  is_nil err = false →
  (handler order fn w r p).1 =
  match as_Error err with
  | Some status => (output w status err (getFormat r "Accept").1).1
  | None => (output w 500 (IError500 NewError500) (getFormat r "Accept").1).1
  end.
Proof.
  intros Hfn Hnil. unfold handler.
  destruct (getFormat r "Accept") as [outputFormat found].
  rewrite Hfn, Hnil. cbn [negb fst].
  destruct (as_Error err) as [status|].
  - by destruct (output w status err outputFormat).
  - by destruct (output w 500 (IError500 NewError500) outputFormat).
Qed.

(** The success path (lines 448-485). *)
Lemma handler_success (fn : Controller) (w : ResponseWriter) (r : Request)
    (p : list (string * string)) (resp : iface U) :
  fn r {| httprouter_Params := p |} = (resp, inil) →
  (handler order fn w r p).1 =
  match as_RespCType resp with
  | Some (ctype, data) =>
      (outputContentType (shaped_writer order resp w) (shaped_status resp) data ctype).1
  | None =>
      (output (shaped_writer order resp w) (shaped_status resp) resp (getFormat r "Accept").1).1
  end.
Proof.
  intros Hfn. unfold handler, shaped_writer, shaped_status, shaped_location.
  destruct (getFormat r "Accept") as [outputFormat found].
  rewrite Hfn. cbn [negb is_nil fst].
  destruct (as_Resp resp) as [[c l]|]; [destruct (c =? 0)%Z|]; cbn [negb];
    (destruct (as_RespCType resp) as [[ctype data]|];
     [reflexivity|
      match goal with |- context [output ?a ?b ?c ?d] => by destruct (output a b c d) end]).
Qed.
End HandlerFacts.

(** ** Error responses and the default status *)

Section Responses.
Context {U : Type} `{Methods U} `{Codec U}.
Variable order : MapRange.

(** C2, as amended.  Negotiation over [Accept] yields JSON, XML or FORM,
    and FORM exactly when the first recognized [Accept] value is
    [application/x-www-form-urlencoded]; FORM is never encoded: [output]
    rejects it with "unknown output format" and leaves the writer as it
    was. *)
Theorem encode_negotiation_formats (r : Request) :
  ((getFormat r "Accept").1 = formatJSON ∨ (getFormat r "Accept").1 = formatXML
   ∨ (getFormat r "Accept").1 = formatFORM)
  ∧ ((getFormat r "Accept").1 = formatFORM ↔
     ∃ header, Header r !! "Accept" = Some header
       ∧ List.find recognized header = Some "application/x-www-form-urlencoded")
  ∧ ((getFormat r "Accept").1 = formatFORM →
     ∀ (w : ResponseWriter) (code : Z) (data : iface U),
       output w code data (getFormat r "Accept").1 = (w, Some "unknown output format")).
Proof.
  split; [apply getFormat_range|]. split.
  - unfold getFormat. destruct (Header r !! "Accept") as [header|].
    + rewrite getFormat_loop_find.
      destruct (List.find recognized header) as [s|] eqn:Hfind; cbn [fst].
      * destruct (find_some _ _ Hfind) as [_ Hrec].
        rewrite (format_of_mime_FORM s Hrec). split.
        -- intros Hs. subst s. by exists header.
        -- intros (header' & [= <-] & Hfind'). congruence.
      * split; [discriminate|]. intros (header' & [= <-] & Hfind'). congruence.
    + split; [discriminate|]. intros (header' & Hnone & _). discriminate.
  - intros -> w code data. apply output_FORM.
Qed.

(** C3, as amended.  For a handler error without a [StatusCode] method the
    writer is the one [output] produces for the fixed [Error500] value,
    whatever the error was.  When the format negotiated from [Accept] is
    JSON or XML, the response has status 500 and its body is the
    serialization of the [Error500] whose message is "an unexpected error
    occured, please contact an administrator"; when it is FORM, nothing is
    written. *)
Theorem generic_error_response (fn : Controller) (w : ResponseWriter) (r : Request)
    (p : list (string * string)) (resp err : iface U) :
  fn r {| httprouter_Params := p |} = (resp, err) →
  is_nil err = false →
  StatusCode_of err = None →
  unwritten w →
  (handler order fn w r p).1
  = (output w 500 (IError500 NewError500) (getFormat r "Accept").1).1
  ∧ Message NewError500 = "an unexpected error occured, please contact an administrator"
  ∧ (∀ chunk, serializes (getFormat r "Accept").1 (IError500 NewError500) chunk →
     rw_status (handler order fn w r p).1 = Some 500
     ∧ rw_body (handler order fn w r p).1 = chunk)
  ∧ ((getFormat r "Accept").1 = formatFORM → (handler order fn w r p).1 = w).
Proof.
  intros Hfn Hnil Hcap (Hs & Hb & _).
  rewrite (handler_error order fn w r p resp err Hfn Hnil).
  unfold as_Error. rewrite Hcap.
  split; [reflexivity|]. split; [reflexivity|]. split.
  - intros chunk Hser.
    destruct (output_status w 500 (IError500 NewError500) _ chunk Hs Hser) as [-> ->].
    by rewrite Hb.
  - intros ->. by rewrite output_FORM.
Qed.

(** C4, as amended.  For a handler error whose [StatusCode] method returns
    [S]: when the format negotiated from [Accept] is JSON or XML, the
    response has status [S] and its body is the serialization of the error
    value itself in that format; when it is FORM, nothing is written. *)
Theorem status_error_response (fn : Controller) (w : ResponseWriter) (r : Request)
    (p : list (string * string)) (resp err : iface U) (S : Z) :
  fn r {| httprouter_Params := p |} = (resp, err) →
  is_nil err = false →
  StatusCode_of err = Some S →
  unwritten w →
  (∀ chunk, serializes (getFormat r "Accept").1 err chunk →
   rw_status (handler order fn w r p).1 = Some S
   ∧ rw_body (handler order fn w r p).1 = chunk)
  ∧ ((getFormat r "Accept").1 = formatFORM → (handler order fn w r p).1 = w).
Proof.
  intros Hfn Hnil Hcap (Hs & Hb & _).
  rewrite (handler_error order fn w r p resp err Hfn Hnil).
  unfold as_Error. rewrite Hcap. split.
  - intros chunk Hser.
    destruct (output_status w S err _ chunk Hs Hser) as [-> ->].
    by rewrite Hb.
  - intros ->. by rewrite output_FORM.
Qed.

Lemma shaped_status_default (resp : iface U) :
  StatusCode_of resp = None ∨ StatusCode_of resp = Some 0 →
  shaped_status resp = 200.
Proof.
  unfold shaped_status, as_Resp. intros [->| ->]; [reflexivity|].
  by destruct (Location_of resp).
Qed.

(** C5.  A success value without a [StatusCode] method, or whose
    [StatusCode] returns zero, is answered with status 200: no other
    status reaches [WriteHeader], and [WriteHeader(200)] is called
    whenever a body is written (a raw value, or one that serializes). *)
Theorem default_status_200 (fn : Controller) (w : ResponseWriter) (r : Request)
    (p : list (string * string)) (resp : iface U) :
  fn r {| httprouter_Params := p |} = (resp, inil) →
  StatusCode_of resp = None ∨ StatusCode_of resp = Some 0 →
  rw_status w = None →
  status_sent (handler order fn w r p).1 = 200
  ∧ (is_Some (as_RespCType resp)
     ∨ (∃ chunk, serializes (getFormat r "Accept").1 resp chunk) →
     rw_status (handler order fn w r p).1 = Some 200).
Proof.
  intros Hfn Hcap Hs.
  rewrite (handler_success order fn w r p resp Hfn).
  rewrite (shaped_status_default resp Hcap).
  assert (Hsw : rw_status (shaped_writer order resp w) = None)
    by (by rewrite shaped_writer_status).
  destruct (as_RespCType resp) as [[ctype data]|].
  - unfold status_sent, outputContentType. cbn [fst].
    autorewrite with writer. cbn. rewrite Hsw. done.
  - split.
    + unfold status_sent.
      by destruct (output_status_cases (shaped_writer order resp w) 200 resp
                     (getFormat r "Accept").1 Hsw) as [-> | ->].
    + intros [[? [=]]|[chunk Hser]].
      by destruct (output_status (shaped_writer order resp w) 200 resp _ chunk Hsw Hser).
Qed.
End Responses.

(** ** Cookies and the raw content-type bypass *)

Section Shaping.
Context {U : Type} `{Methods U} `{Codec U}.
Variable order : MapRange.

Lemma range_visits (cookies : gmap string string) (name value : string) :
  cookies !! name = Some value → name ∈ (range_of order cookies).*1.
Proof.
  intros Hlook. apply list_elem_of_fmap. exists (name, value). split; [reflexivity|].
  rewrite (range_perm order). by apply elem_of_map_to_list.
Qed.

Lemma range_keys (cookies : gmap string string) (name : string) :
  name ∈ (range_of order cookies).*1 → is_Some (cookies !! name).
Proof.
  intros Hin. apply list_elem_of_fmap in Hin as ([k v] & -> & Hin).
  rewrite (range_perm order) in Hin. apply elem_of_map_to_list in Hin. by exists v.
Qed.

Lemma cookie_for_Name (cookies : gmap string string) (name : string) :
  Name (cookie_for cookies name) = name.
Proof. unfold cookie_for. by destruct (String.length _ =? 0)%nat. Qed.

Lemma cookie_for_empty (cookies : gmap string string) (name : string) :
  cookies !! name = Some EmptyString →
  cookie_for cookies name = {| Name := name; Value := "nil"; Path := "/"; MaxAge := -1 |}.
Proof.
  intros Hlook. unfold cookie_for. by rewrite (lookup_total_correct _ _ _ Hlook).
Qed.

Lemma cookie_for_nonempty (cookies : gmap string string) (name value : string) :
  cookies !! name = Some value → value ≠ EmptyString →
  cookie_for cookies name =
  {| Name := name; Value := value; Path := "/"; MaxAge := 86400 |}.
Proof.
  intros Hlook Hne. unfold cookie_for. rewrite (lookup_total_correct _ _ _ Hlook).
  by destruct value.
Qed.

(** What a success response hands to [http.SetCookie]. *)
Lemma handler_success_cookies (fn : Controller) (w : ResponseWriter) (r : Request)
    (p : list (string * string)) (resp : iface U) :
  fn r {| httprouter_Params := p |} = (resp, inil) →
  rw_cookies (handler order fn w r p).1
  = (rw_cookies w ++ emitted_cookies order resp)%list.
Proof.
  intros Hfn. rewrite (handler_success order fn w r p resp Hfn).
  destruct (as_RespCType resp) as [[ctype data]|].
  - unfold outputContentType. cbn [fst]. autorewrite with writer. cbn.
    apply shaped_writer_cookies.
  - rewrite output_cookies. apply shaped_writer_cookies.
Qed.

(** C7.  For every entry of the cookie map of a success value, a cookie
    of that name is handed to [http.SetCookie]: with path "/" and max-age
    -1 when the entry's value is empty, and with path "/", the entry's
    value and max-age 86400 otherwise. *)
Theorem cookie_emission (fn : Controller) (w : ResponseWriter) (r : Request)
    (p : list (string * string)) (resp : iface U)
    (cookies : gmap string string) (name value : string) :
  fn r {| httprouter_Params := p |} = (resp, inil) →
  as_ICookieSetter resp = Some (Some cookies) →
  cookies !! name = Some value →
  (value = EmptyString →
   ∃ c, c ∈ rw_cookies (handler order fn w r p).1
        ∧ Name c = name ∧ Path c = "/" ∧ MaxAge c = -1)
  ∧ (value ≠ EmptyString →
     {| Name := name; Value := value; Path := "/"; MaxAge := 86400 |}
     ∈ rw_cookies (handler order fn w r p).1).
Proof.
  intros Hfn Hcs Hlook.
  rewrite (handler_success_cookies fn w r p resp Hfn).
  unfold emitted_cookies. rewrite Hcs.
  pose proof (list_elem_of_fmap_2 (cookie_for cookies) _ _
                (range_visits cookies name value Hlook)) as Hin.
  split.
  - intros ->. exists (cookie_for cookies name). split.
    + apply elem_of_app. by right.
    + by rewrite (cookie_for_empty cookies name Hlook).
  - intros Hne. rewrite <- (cookie_for_nonempty cookies name value Hlook Hne).
    apply elem_of_app. by right.
Qed.

(** C10.  For an entry whose value is the empty string, the cookie handed
    to [http.SetCookie] has the value "nil" and max-age -1, and no cookie
    of that name is emitted with any other value. *)
Theorem deletion_cookie_value (fn : Controller) (w : ResponseWriter) (r : Request)
    (p : list (string * string)) (resp : iface U)
    (cookies : gmap string string) (name : string) :
  fn r {| httprouter_Params := p |} = (resp, inil) →
  as_ICookieSetter resp = Some (Some cookies) →
  cookies !! name = Some EmptyString →
  rw_cookies w = [] →
  {| Name := name; Value := "nil"; Path := "/"; MaxAge := -1 |}
  ∈ rw_cookies (handler order fn w r p).1
  ∧ ∀ c, c ∈ rw_cookies (handler order fn w r p).1 → Name c = name →
         Value c = "nil" ∧ MaxAge c = -1.
Proof.
  intros Hfn Hcs Hlook Hw.
  rewrite (handler_success_cookies fn w r p resp Hfn), Hw.
  unfold emitted_cookies. rewrite Hcs. cbn [app]. split.
  - rewrite <- (cookie_for_empty cookies name Hlook).
    apply list_elem_of_fmap_2. by apply (range_visits cookies name EmptyString).
  - intros c Hin Hname. apply list_elem_of_fmap in Hin as (n & -> & _).
    rewrite cookie_for_Name in Hname. subst n.
    by rewrite (cookie_for_empty cookies name Hlook).
Qed.

(** C9.  A raw value and a value without the raw methods that agree on
    [Resp] and on [ICookieSetter] get the same cookies, the same [Location]
    header (and the same headers altogether, [Content-Type] apart), and the
    same status: the shaped status for the raw value, and the same one for
    the other value whenever its body is written. *)
Theorem raw_bypass_frame (fn_raw fn_plain : Controller) (w : ResponseWriter)
    (r : Request) (p : list (string * string)) (raw plain : iface U)
    (ctype : string) (data : list byte) :
  fn_raw r {| httprouter_Params := p |} = (raw, inil) →
  fn_plain r {| httprouter_Params := p |} = (plain, inil) →
  as_RespCType raw = Some (ctype, data) →
  as_RespCType plain = None →
  as_Resp raw = as_Resp plain →
  as_ICookieSetter raw = as_ICookieSetter plain →
  rw_cookies (handler order fn_raw w r p).1 = rw_cookies (handler order fn_plain w r p).1
  ∧ rw_header (handler order fn_raw w r p).1 !! "Location"
    = rw_header (handler order fn_plain w r p).1 !! "Location"
  ∧ delete "Content-Type" (rw_header (handler order fn_raw w r p).1)
    = delete "Content-Type" (rw_header (handler order fn_plain w r p).1)
  ∧ (rw_status w = None →
     rw_status (handler order fn_raw w r p).1 = Some (shaped_status raw))
  ∧ (∀ chunk, serializes (getFormat r "Accept").1 plain chunk →
     rw_status (handler order fn_plain w r p).1
     = rw_status (handler order fn_raw w r p).1).
Proof.
  intros Hraw Hplain Hct Hnone Hresp Hcs.
  assert (Hsw : shaped_writer order raw w = shaped_writer order plain w)
    by (unfold shaped_writer, shaped_location; by rewrite Hresp, Hcs).
  assert (Hst : shaped_status raw = shaped_status plain)
    by (unfold shaped_status; by rewrite Hresp).
  rewrite (handler_success order fn_raw w r p raw Hraw), Hct.
  rewrite (handler_success order fn_plain w r p plain Hplain), Hnone.
  rewrite output_cookies, output_headers, output_header_lookup by done.
  unfold outputContentType. cbn [fst]. autorewrite with writer. cbn.
  rewrite delete_insert_eq, lookup_insert_ne, Hsw, Hst by done.
  split; [reflexivity|]. split; [reflexivity|]. split; [reflexivity|]. split.
  - intros Hw. by rewrite shaped_writer_status, Hw.
  - intros chunk Hser.
    destruct (output_serialized (shaped_writer order plain w) (shaped_status plain)
                plain _ chunk Hser) as [ct ->].
    cbn [fst]. autorewrite with writer. reflexivity.
Qed.

(** C8.  For a success value with the raw methods (content type [ctype],
    bytes [data]) the body written is [data] and the [Content-Type]
    header is [ctype]; the writer is the same for every request (so for
    every [Accept] header) and for every codec. *)
Theorem raw_content_type_bypass (fn : Controller) (w : ResponseWriter) (r : Request)
    (p : list (string * string)) (resp : iface U) (ctype : string) (data : list byte) :
  fn r {| httprouter_Params := p |} = (resp, inil) →
  as_RespCType resp = Some (ctype, data) →
  unwritten w →
  rw_body (handler order fn w r p).1 = data
  ∧ rw_header (handler order fn w r p).1 !! "Content-Type" = Some [ctype]
  ∧ ∀ (codec : Codec U) (fn' : Controller) (r' : Request) (p' : list (string * string)),
      fn' r' {| httprouter_Params := p' |} = (resp, inil) →
      (@handler U _ codec order fn' w r' p').1 = (handler order fn w r p).1.
Proof.
  intros Hfn Hct (Hs & Hb & _).
  rewrite (handler_success order fn w r p resp Hfn), Hct.
  unfold outputContentType. cbn [fst]. autorewrite with writer. cbn.
  rewrite shaped_writer_body, Hb, lookup_insert_eq.
  repeat split.
  intros codec fn' r' p' Hfn'.
  rewrite (@handler_success U _ codec order fn' w r' p' resp Hfn'), Hct.
  rewrite (handler_success order fn w r p resp Hfn), Hct.
  reflexivity.
Qed.
End Shaping.

(** ** Decoding *)

Section ParseFacts.
Context {U T : Type} `{Decoder T}.
Variable order : MapRange.

Lemma Parse_inputFormat_fallback (r : Request) :
  no_recognized_value r "Content-Type" →
  Parse_inputFormat r = (getFormat r "Accept").1.
Proof.
  intros Hno. unfold Parse_inputFormat.
  rewrite (getFormat_not_found r "Content-Type" Hno).
  by destruct (getFormat r "Accept").
Qed.

(** C6.  When no [Content-Type] value is recognized (the header absent,
    or present with unrecognized values only), [Parse] is the decoding in
    the format negotiated from [Accept]: JSON when [Accept] has no
    recognized value either, and XML for [Accept: application/xml], where
    the target is the one [xml.Unmarshal] leaves. *)
Theorem Parse_falls_back_to_Accept (r : Request) (v : T) :
  no_recognized_value r "Content-Type" →
  Parse (U:=U) order r v = Parse_decode order (getFormat r "Accept").1 r v
  ∧ (no_recognized_value r "Accept" →
     Parse (U:=U) order r v = Parse_decode order formatJSON r v)
  ∧ (Header r !! "Accept" = Some ["application/xml"] →
     Parse (U:=U) order r v = Parse_decode order formatXML r v
     ∧ ∀ chunk, ioutil_ReadAll r = (chunk, None) →
         (Parse (U:=U) order r v).1 = (xml_Unmarshal chunk v).1).
Proof.
  intros Hno. unfold Parse. rewrite (Parse_inputFormat_fallback r Hno).
  split; [reflexivity|]. split.
  - intros Hacc. by rewrite (getFormat_not_found r "Accept" Hacc).
  - intros Hacc. unfold getFormat at 1 2. rewrite Hacc. cbn [getFormat_loop String.eqb fst].
    split; [reflexivity|].
    intros chunk Hread. unfold Parse_decode. cbn. rewrite Hread.
    by destruct (xml_Unmarshal chunk v).
Qed.

(** C1, on the code.  When the decode format is JSON or XML and the body
    was read, [Parse] returns nil whatever the unmarshaller reports: the
    error of a malformed body never reaches the caller. *)
Theorem Parse_drops_unmarshal_error (r : Request) (v : T) (chunk : list byte)
    (e : string) :
  ioutil_ReadAll r = (chunk, None) →
  (Parse_inputFormat r = formatJSON ∧ (json_Unmarshal chunk v).2 = Some e)
  ∨ (Parse_inputFormat r = formatXML ∧ (xml_Unmarshal chunk v).2 = Some e) →
  (Parse (U:=U) order r v).2 = inil.
Proof.
  intros Hread [[Hfmt _]|[Hfmt _]]; unfold Parse, Parse_decode;
    rewrite Hfmt; cbn; rewrite Hread.
  - by destruct (json_Unmarshal chunk v).
  - by destruct (xml_Unmarshal chunk v).
Qed.

(** The form branch assigns the function's own [err]: its failures are
    reported. *)
Lemma Parse_reports_form_error (r : Request) (v : T) (e : string) :
  Parse_inputFormat r = formatFORM →
  (Request_ParseForm r).2 = Some e →
  (Parse (U:=U) order r v).2
  = IError500 {| Message := "failed to parse body: " ++ e |}.
Proof.
  intros Hfmt Herr. unfold Parse, Parse_decode. rewrite Hfmt. cbn.
  destruct (Request_ParseForm r) as [form err]. cbn in Herr. by subst err.
Qed.

(** The first revision reports a malformed JSON or XML body to the
    caller. *)
Lemma Rev0_Parse_reports_unmarshal_error (r : Request) (v : T) (chunk : list byte)
    (e : string) :
  ioutil_ReadAll r = (chunk, None) →
  (Rev0.getFormat r "Content-Type" = (formatJSON, true)
   ∧ (json_Unmarshal chunk v).2 = Some e)
  ∨ (Rev0.getFormat r "Content-Type" = (formatXML, true)
     ∧ (xml_Unmarshal chunk v).2 = Some e) →
  (Rev0.Parse (U:=U) r v).2
  = IError500 {| Message := "failed to parse body: " ++ e |}.
Proof.
  intros Hread [[Hfmt He]|[Hfmt He]]; unfold Rev0.Parse;
    destruct (Rev0.getFormat r "Accept") as [outputFormat found'];
    rewrite Hfmt; cbn; rewrite Hread.
  - destruct (json_Unmarshal chunk v) as [v' err]. cbn in He. by subst err.
  - destruct (xml_Unmarshal chunk v) as [v' err]. cbn in He. by subst err.
Qed.
End ParseFacts.

(** * The pipeline on concrete requests *)

Module Examples.
Import Sample.

(** Scenario A of the specification. *)
Example scenario_A :
  let w := (handler sorted_range testfunc NewWriter json_request []).1 in
  rw_status w = Some 200
  ∧ rw_header w !! "Content-Type" = Some ["aplication/json"].
Proof. vm_compute. done. Qed.

(** Scenario B: the domain error of [test2func] is written with its own
    status. *)
Example scenario_B :
  let w :=
    (handler sorted_range test2func NewWriter
       (request [] ["application/json"] (list_byte_of_string "{}")) []).1 in
  rw_status w = Some 403
  ∧ rw_body w = list_byte_of_string (render_json oops).
Proof. vm_compute. done. Qed.

(** Scenario D: raw bytes, whatever [Accept] says. *)
Example scenario_D :
  let w := (handler sorted_range (reply (IUser (CDownload hello))) NewWriter
              xml_only_request []).1 in
  rw_body w = list_byte_of_string "hello"
  ∧ rw_header w !! "Content-Type" = Some ["text/plain"].
Proof. vm_compute. done. Qed.

(** C1, failing input: [Content-Type: application/json] with an empty
    body.  The unmarshaller reports "unexpected end of JSON input" and
    [Parse] returns nil. *)
Lemma Parse_drops_unmarshal_error_witness :
  (json_Unmarshal [] empty_target).2 = Some "unexpected end of JSON input"
  ∧ (Parse (U:=Caller) sorted_range malformed_json_request empty_target).2 = inil.
Proof.
  split; [reflexivity|].
  apply (Parse_drops_unmarshal_error (U:=Caller) sorted_range malformed_json_request
           empty_target [] "unexpected end of JSON input").
  - reflexivity.
  - left. split; reflexivity.
Defined.

(** The first revision on the same input: the error is reported. *)
Example Rev0_Parse_malformed_json :
  (Rev0.Parse (U:=Caller) malformed_json_request empty_target).2
  = IError500 {| Message := "failed to parse body: unexpected end of JSON input" |}.
Proof. reflexivity. Qed.

(** C2, counterexample: with [Accept: application/x-www-form-urlencoded,
    application/json] the format chosen for the response is FORM, and the
    handler's attempt to write ends in "unknown output format". *)
Lemma accept_form_negotiates_FORM :
  (getFormat form_accept_request "Accept").1 = formatFORM
  ∧ ¬ ((getFormat form_accept_request "Accept").1 = formatJSON
       ∨ (getFormat form_accept_request "Accept").1 = formatXML)
  ∧ (handler sorted_range testfunc NewWriter form_accept_request []).2
    = ["error while writing data: unknown output format"].
Proof.
  split; [reflexivity|]. split; [|reflexivity].
  vm_compute. intros [Heq|Heq]; discriminate Heq.
Qed.

Lemma encode_negotiation_formats_witness :
  (getFormat form_accept_request "Accept").1 = formatFORM
  ∧ ∀ (w : ResponseWriter) (code : Z) (data : iface Caller),
      output w code data (getFormat form_accept_request "Accept").1
      = (w, Some "unknown output format").
Proof.
  split; [reflexivity|].
  apply (encode_negotiation_formats (U:=Caller) form_accept_request). reflexivity.
Defined.

(** C3, counterexample: for a plain error and [Accept: application/json]
    the body is the serialization of the message spelled "occured", which
    is not that of the message spelled "occurred"; and for [Accept:
    application/x-www-form-urlencoded] no status 500 and no body are
    written at all. *)
Lemma generic_error_not_as_claimed :
  (let w := (handler sorted_range (fail_with (IerrorString "boom")) NewWriter
               json_request []).1 in
   rw_body w
   = generic_body "an unexpected error occured, please contact an administrator"
   ∧ rw_body w
     ≠ generic_body "an unexpected error occurred, please contact an administrator")
  ∧ (let w := (handler sorted_range (fail_with (IerrorString "boom")) NewWriter
                 form_accept_request []).1 in
     rw_status w = None ∧ rw_body w = [] ∧ status_sent w = 200).
Proof.
  split; [split; [reflexivity|]|by vm_compute].
  vm_compute. intros Heq. discriminate Heq.
Qed.

Lemma generic_error_response_witness :
  let w := (handler sorted_range (fail_with (IerrorString "boom")) NewWriter
              json_request []).1 in
  rw_status w = Some 500
  ∧ rw_body w
    = generic_body "an unexpected error occured, please contact an administrator".
Proof.
  pose proof (generic_error_response (U:=Caller) sorted_range
                (fail_with (IerrorString "boom")) NewWriter json_request []
                inil (IerrorString "boom")) as Hthm.
  destruct Hthm as (_ & _ & Hwritten & _).
  - reflexivity.
  - reflexivity.
  - reflexivity.
  - repeat split.
  - apply Hwritten. left. split; reflexivity.
Defined.

(** C4, counterexample: an error with status 403 and [Accept:
    application/x-www-form-urlencoded]: [WriteHeader(403)] is never
    called and no body is written. *)
Lemma status_error_unwritten_for_form_accept :
  StatusCode_of oops = Some 403
  ∧ (let w := (handler sorted_range (fail_with oops) NewWriter form_accept_request []).1 in
     rw_status w = None ∧ rw_body w = [] ∧ status_sent w = 200)
  ∧ (handler sorted_range (fail_with oops) NewWriter form_accept_request []).2
    = ["error: oops"; "error while writing error: unknown output format"].
Proof. by vm_compute. Qed.

Lemma status_error_response_witness :
  let w := (handler sorted_range (fail_with oops) NewWriter xml_only_request []).1 in
  rw_status w = Some 403
  ∧ rw_body w = list_byte_of_string (render_xml oops).
Proof.
  pose proof (status_error_response (U:=Caller) sorted_range (fail_with oops) NewWriter
                xml_only_request [] inil oops 403) as Hthm.
  destruct Hthm as (Hwritten & _).
  - reflexivity.
  - reflexivity.
  - reflexivity.
  - repeat split.
  - apply Hwritten. right. split; reflexivity.
Defined.

Lemma default_status_200_witness :
  let w := (handler sorted_range (reply (ICookies {| Cookies := Some session_cookies |}))
              NewWriter json_request []).1 in
  status_sent w = 200 ∧ rw_status w = Some 200.
Proof.
  pose proof (default_status_200 (U:=Caller) sorted_range
                (reply (ICookies {| Cookies := Some session_cookies |}))
                NewWriter json_request []
                (ICookies {| Cookies := Some session_cookies |})) as Hthm.
  destruct Hthm as (Hsent & Hwritten).
  - reflexivity.
  - left. reflexivity.
  - reflexivity.
  - split; [exact Hsent|]. apply Hwritten. right.
    exists (list_byte_of_string "{}"). left. split; reflexivity.
Defined.

(** Scenario C: no [Content-Type], [Accept: application/xml]. *)
Lemma Parse_falls_back_to_Accept_witness :
  Parse (U:=Caller) sorted_range xml_only_request empty_target
  = Parse_decode sorted_range formatXML xml_only_request empty_target
  ∧ (Parse (U:=Caller) sorted_range xml_only_request empty_target).1
    = (xml_Unmarshal [] empty_target).1.
Proof.
  pose proof (Parse_falls_back_to_Accept (U:=Caller) sorted_range xml_only_request
                empty_target) as Hthm.
  destruct Hthm as (_ & _ & Hxml).
  - intros header Hlook. vm_compute in Hlook. discriminate Hlook.
  - destruct Hxml as [Hdecode Htarget]; [reflexivity|].
    split; [exact Hdecode|]. apply Htarget. reflexivity.
Defined.

Lemma cookie_emission_witness :
  let w := (handler sorted_range (reply (IRedirect moved)) NewWriter json_request []).1 in
  {| Name := "sid"; Value := "abc"; Path := "/"; MaxAge := 86400 |} ∈ rw_cookies w.
Proof.
  pose proof (cookie_emission (U:=Caller) sorted_range (reply (IRedirect moved))
                NewWriter json_request [] (IRedirect moved) session_cookies
                "sid" "abc") as Hthm.
  destruct Hthm as (_ & Hset).
  - reflexivity.
  - reflexivity.
  - reflexivity.
  - apply Hset. discriminate.
Defined.

Lemma deletion_cookie_value_witness :
  let w := (handler sorted_range (reply (IRedirect moved)) NewWriter json_request []).1 in
  {| Name := "old"; Value := "nil"; Path := "/"; MaxAge := -1 |} ∈ rw_cookies w.
Proof.
  pose proof (deletion_cookie_value (U:=Caller) sorted_range (reply (IRedirect moved))
                NewWriter json_request [] (IRedirect moved) session_cookies
                "old") as Hthm.
  destruct Hthm as (Hnil & _).
  - reflexivity.
  - reflexivity.
  - reflexivity.
  - reflexivity.
  - exact Hnil.
Defined.

Lemma raw_content_type_bypass_witness :
  let w := (handler sorted_range (reply (IUser (CDownload hello))) NewWriter
              xml_only_request []).1 in
  rw_body w = list_byte_of_string "hello"
  ∧ rw_header w !! "Content-Type" = Some ["text/plain"].
Proof.
  pose proof (raw_content_type_bypass (U:=Caller) sorted_range
                (reply (IUser (CDownload hello))) NewWriter xml_only_request []
                (IUser (CDownload hello)) "text/plain" (list_byte_of_string "hello"))
    as Hthm.
  destruct Hthm as (Hbody & Htype & _).
  - reflexivity.
  - reflexivity.
  - repeat split.
  - split; assumption.
Defined.

(** The download and the bare redirect it embeds: same cookies, same
    [Location], same status 302. *)
Lemma raw_bypass_frame_witness :
  let w_raw := (handler sorted_range (reply (IUser (CDownload hello))) NewWriter
                  json_request []).1 in
  let w_plain := (handler sorted_range (reply (IRedirect moved)) NewWriter
                    json_request []).1 in
  rw_cookies w_raw = rw_cookies w_plain
  ∧ rw_header w_raw !! "Location" = rw_header w_plain !! "Location"
  ∧ rw_status w_raw = Some 302
  ∧ rw_status w_plain = rw_status w_raw.
Proof.
  pose proof (raw_bypass_frame (U:=Caller) sorted_range
                (reply (IUser (CDownload hello))) (reply (IRedirect moved))
                NewWriter json_request [] (IUser (CDownload hello)) (IRedirect moved)
                "text/plain" (list_byte_of_string "hello")) as Hthm.
  destruct Hthm as (Hcookies & Hlocation & _ & Hstatus & Hsame).
  - reflexivity.
  - reflexivity.
  - reflexivity.
  - reflexivity.
  - reflexivity.
  - reflexivity.
  - split; [exact Hcookies|]. split; [exact Hlocation|]. split.
    + apply Hstatus. reflexivity.
    + apply (Hsame (list_byte_of_string "{}")). left. split; reflexivity.
Defined.
End Examples.

(** * Further properties of the package *)

(** ** Negotiation *)

Lemma find_first_recognized (pre post : list string) (s : string) :
  Forall (λ x, recognized x = false) pre → recognized s = true →
  List.find recognized (pre ++ s :: post)%list = Some s.
Proof.
  intros Hpre Hs. induction Hpre as [|x pre Hx _ IH]; cbn.
  - by rewrite Hs.
  - by rewrite Hx.
Qed.

(** X1.  The first recognized value of a header decides the format;
    unrecognized values before it and every value after it are ignored. *)
Theorem getFormat_first_recognized (r : Request) (field : string)
    (pre post : list string) (s : string) :
  Header r !! field = Some (pre ++ s :: post)%list →
  Forall (λ x, recognized x = false) pre →
  recognized s = true →
  getFormat r field = (format_of_mime s, true)
  ∧ (s = "application/json" → (getFormat r field).1 = formatJSON)
  ∧ (s = "application/xml" → (getFormat r field).1 = formatXML)
  ∧ (s = "application/x-www-form-urlencoded" → (getFormat r field).1 = formatFORM).
Proof.
  intros Hlook Hpre Hs. unfold getFormat. rewrite Hlook, getFormat_loop_find.
  rewrite (find_first_recognized pre post s Hpre Hs). cbn [fst].
  split; [reflexivity|]. repeat split; intros ->; reflexivity.
Qed.

(** X2.  [getFormat] reports "not found" exactly when the header is absent
    or holds no recognized value, and the format it then returns is JSON. *)
Theorem getFormat_not_found_iff (r : Request) (field : string) :
  ((getFormat r field).2 = false ↔ no_recognized_value r field)
  ∧ ((getFormat r field).2 = false → (getFormat r field).1 = formatJSON).
Proof.
  split; [|apply getFormat_found_false]. split.
  - unfold getFormat, no_recognized_value. intros Hnot header Hlook.
    rewrite Hlook, getFormat_loop_find in Hnot.
    destruct (List.find recognized header) as [s|] eqn:Hfind; [discriminate|].
    apply List.Forall_forall. intros x Hx. exact (find_none _ _ Hfind x Hx).
  - intros Hno. by rewrite (getFormat_not_found r field Hno).
Qed.

Lemma Rev0_getFormat_loop_agrees (header : list string) :
  Forall (λ s, s ≠ "application/x-www-form-urlencoded") header →
  Rev0.getFormat_loop header = getFormat_loop header.
Proof.
  induction 1 as [|s rest Hs _ IH]; [reflexivity|].
  cbn [Rev0.getFormat_loop getFormat_loop]. rewrite IH.
  destruct (String.eqb s "application/json"); [reflexivity|].
  destruct (String.eqb s "application/xml"); [reflexivity|].
  by apply String.eqb_neq in Hs as ->.
Qed.

Lemma Rev0_getFormat_loop_range (header : list string) :
  (Rev0.getFormat_loop header).1 = formatJSON
  ∨ (Rev0.getFormat_loop header).1 = formatXML.
Proof.
  induction header as [|s rest IH]; [by left|].
  cbn [Rev0.getFormat_loop].
  destruct (String.eqb s "application/json"); [by left|].
  destruct (String.eqb s "application/xml"); [by right|exact IH].
Qed.

(** X3.  The first revision of the negotiator only ever yields JSON or XML,
    and agrees with the current one on every header that holds no
    [application/x-www-form-urlencoded] value. *)
Theorem Rev0_getFormat_agrees (r : Request) (field : string) :
  ((Rev0.getFormat r field).1 = formatJSON ∨ (Rev0.getFormat r field).1 = formatXML)
  ∧ ((∀ header, Header r !! field = Some header →
        Forall (λ s, s ≠ "application/x-www-form-urlencoded") header) →
     Rev0.getFormat r field = getFormat r field).
Proof.
  unfold Rev0.getFormat, getFormat. destruct (Header r !! field) as [header|].
  - split; [apply Rev0_getFormat_loop_range|].
    intros Hno. apply Rev0_getFormat_loop_agrees. by apply Hno.
  - split; [by left|done].
Qed.

(** ** Decoding: errors and the form branch *)

Section ParseMore.
Context {U T : Type} `{Decoder T}.
Variable order : MapRange.

Lemma Parse_inputFormat_range (r : Request) :
  Parse_inputFormat r = formatJSON ∨ Parse_inputFormat r = formatXML
  ∨ Parse_inputFormat r = formatFORM.
Proof.
  unfold Parse_inputFormat.
  pose proof (getFormat_range r "Accept") as Ha.
  pose proof (getFormat_range r "Content-Type") as Hc.
  destruct (getFormat r "Accept") as [outputFormat ?].
  destruct (getFormat r "Content-Type") as [inputFormat found].
  by destruct found.
Qed.

(** X4.  Whatever the request and the target, the error [Parse] returns is
    nil or an [Error500] whose message is "failed to read body" or starts
    with "failed to parse body: "; the "unknown output format" error of its
    last branch is never returned. *)
Theorem Parse_error_shape (r : Request) (v : T) :
  (Parse (U:=U) order r v).2 = inil
  ∨ (Parse (U:=U) order r v).2 = IError500 {| Message := "failed to read body" |}
  ∨ ∃ e, (Parse (U:=U) order r v).2
         = IError500 {| Message := "failed to parse body: " ++ e |}.
Proof.
  unfold Parse, Parse_decode.
  destruct (Parse_inputFormat_range r) as [-> | [-> | ->]]; cbn.
  - destruct (ioutil_ReadAll r) as [chunk [e|]]; [by right; left|].
    destruct (json_Unmarshal chunk v). by left.
  - destruct (ioutil_ReadAll r) as [chunk [e|]]; [by right; left|].
    destruct (xml_Unmarshal chunk v). by left.
  - destruct (Request_ParseForm r) as [form [e|]]; [right; right; by exists e|].
    destruct (parseForm order form v) as [v' [e|]]; [right; right; by exists e|by left].
Qed.

(** X5.  When the decode format is JSON or XML and the body cannot be read,
    [Parse] returns the [Error500] "failed to read body" and the target is
    left as it was. *)
Theorem Parse_read_failure (r : Request) (v : T) (e : string) :
  Parse_inputFormat r = formatJSON ∨ Parse_inputFormat r = formatXML →
  (ioutil_ReadAll r).2 = Some e →
  Parse (U:=U) order r v = (v, IError500 {| Message := "failed to read body" |}).
Proof.
  intros Hfmt Hread. unfold Parse, Parse_decode.
  destruct (ioutil_ReadAll r) as [chunk err]. cbn in Hread. subst err.
  by destruct Hfmt as [-> | ->].
Qed.

(** X6.  When the decode format is FORM, the form parses and the target is
    not a non-nil pointer, [Parse] returns the [Error500] "failed to parse
    body: Cannot parse form to non-pointer types" and leaves the target as
    it was. *)
Theorem Parse_form_not_pointer (r : Request) (v : T) :
  Parse_inputFormat r = formatFORM →
  (Request_ParseForm r).2 = None →
  reflect_is_pointer v = false →
  Parse (U:=U) order r v
  = (v, IError500 {| Message := "failed to parse body: Cannot parse form to non-pointer types" |}).
Proof.
  intros Hfmt Hform Hptr. unfold Parse, Parse_decode. rewrite Hfmt. cbn.
  destruct (Request_ParseForm r) as [form err]. cbn in Hform. subst err.
  unfold parseForm. by rewrite Hptr.
Qed.

Lemma foldl_parseForm_step_unchanged (entries : list (string * list string)) (v : T) :
  Forall (λ entry,
            entry.2 = []
            ∨ Kind_is_String
                (FieldByNameFunc v
                   (λ s, String.eqb (strings_ToLower entry.1) (strings_ToLower s)))
              = false) entries →
  foldl parseForm_step v entries = v.
Proof.
  induction 1 as [|[k vs] entries Hentry _ IH]; [reflexivity|].
  cbn [foldl]. replace (parseForm_step v (k, vs)) with v; [exact IH|].
  unfold parseForm_step. cbn in Hentry. destruct Hentry as [-> | Hkind]; [reflexivity|].
  destruct vs; [reflexivity|]. by rewrite Hkind.
Qed.

(** X7.  On a pointer target [parseForm] does not fail, and it leaves the
    target untouched when every form entry has an empty value list or
    matches no field of kind string. *)
Theorem parseForm_skips_unsettable (form : gmap string (list string)) (v : T) :
  reflect_is_pointer v = true →
  (∀ k vs, form !! k = Some vs →
     vs = []
     ∨ Kind_is_String
         (FieldByNameFunc v (λ s, String.eqb (strings_ToLower k) (strings_ToLower s)))
       = false) →
  parseForm order form v = (v, None).
Proof.
  intros Hptr Hskip. unfold parseForm. rewrite Hptr. cbn [negb].
  rewrite foldl_parseForm_step_unchanged; [reflexivity|].
  apply Forall_forall. intros [k vs] Hin.
  rewrite (range_perm order) in Hin. apply elem_of_map_to_list in Hin.
  exact (Hskip k vs Hin).
Qed.


(** X9.  When [Content-Type] is recognized as JSON or XML, decoding does not
    depend on [Accept] nor on any other header: two requests with the same
    body and the same negotiated [Content-Type] format are parsed alike. *)
Theorem Parse_ignores_Accept (r r' : Request) (v : T) (format : Z) :
  getFormat r "Content-Type" = (format, true) →
  getFormat r' "Content-Type" = (format, true) →
  format ≠ formatFORM →
  Body r = Body r' →
  Parse (U:=U) order r v = Parse (U:=U) order r' v.
Proof.
  intros Hr Hr' Hform Hbody. unfold Parse, Parse_inputFormat.
  rewrite Hr, Hr'.
  destruct (getFormat r "Accept") as [o f]. destruct (getFormat r' "Accept") as [o' f'].
  cbn [negb]. unfold Parse_decode, ioutil_ReadAll. rewrite Hbody.
  destruct (format =? formatJSON)%Z; [reflexivity|].
  destruct (format =? formatXML)%Z; [reflexivity|].
  by apply Z.eqb_neq in Hform as ->.
Qed.

Lemma Rev0_getFormat_loop_none (header : list string) :
  Forall (λ s, s ≠ "application/json" ∧ s ≠ "application/xml") header →
  Rev0.getFormat_loop header = (formatJSON, false).
Proof.
  induction 1 as [|s rest [Hj Hx] _ IH]; [reflexivity|].
  cbn [Rev0.getFormat_loop].
  apply String.eqb_neq in Hj as ->. by apply String.eqb_neq in Hx as ->.
Qed.

(** X10.  The first revision of [Parse] rejects a [Content-Type] header that
    is present with no JSON or XML value (a form content type included):
    it returns the [Error500] "unsupported Content-Type: " followed by the
    first value, and neither reads the body nor touches the target. *)
Theorem Rev0_Parse_unsupported_content_type (r : Request) (v : T)
    (h0 : string) (rest : list string) :
  Header r !! "Content-Type" = Some (h0 :: rest) →
  Forall (λ s, s ≠ "application/json" ∧ s ≠ "application/xml") (h0 :: rest) →
  Rev0.Parse (U:=U) r v
  = (v, IError500 {| Message := "unsupported Content-Type: " ++ h0 |}).
Proof.
  intros Hlook Hnone. unfold Rev0.Parse.
  destruct (Rev0.getFormat r "Accept") as [outputFormat found'].
  unfold Rev0.getFormat at 1. rewrite Hlook, (Rev0_getFormat_loop_none _ Hnone).
  reflexivity.
Qed.
End ParseMore.

(** ** The dispatch adapter: error path, status, redirects *)

Section HandlerMore.
Context {U : Type} `{Methods U} `{Codec U}.
Variable order : MapRange.

Lemma shaped_writer_header (resp : iface U) (w : ResponseWriter) :
  rw_header (shaped_writer order resp w) =
  if negb (String.eqb (shaped_location resp) EmptyString)
  then <["Location" := (default [] (rw_header w !! "Location")
                         ++ [shaped_location resp])%list]> (rw_header w)
  else rw_header w.
Proof.
  unfold shaped_writer.
  destruct (negb _); destruct (as_ICookieSetter resp) as [[cookies|]|];
    rewrite ?foldl_emit_cookie; reflexivity.
Qed.

Lemma output_serialized_ctype (w : ResponseWriter) (code : Z) (data : iface U)
    (format : Z) (chunk : list byte) :
  serializes format data chunk →
  output w code data format =
  (ResponseWriter_Write
     (WriteHeader
        (Header_Set w "Content-Type"
           (if (format =? formatJSON)%Z then "aplication/json" else "aplication/xml"))
        code) chunk, None).
Proof.
  intros [[-> Hm]|[-> Hm]]; unfold output; cbn; by rewrite Hm.
Qed.

(** Both components of the success path. *)
Lemma handler_success_full (fn : Controller) (w : ResponseWriter) (r : Request)
    (p : list (string * string)) (resp : iface U) :
  fn r {| httprouter_Params := p |} = (resp, inil) →
  handler order fn w r p =
  let written :=
    match as_RespCType resp with
    | Some (ctype, data) =>
        outputContentType (shaped_writer order resp w) (shaped_status resp) data ctype
    | None =>
        output (shaped_writer order resp w) (shaped_status resp) resp (getFormat r "Accept").1
    end in
  (written.1, log_write_failure "error while writing data:" written.2).
Proof.
  intros Hfn. unfold handler, shaped_writer, shaped_status, shaped_location.
  destruct (getFormat r "Accept") as [outputFormat found].
  rewrite Hfn. cbn [negb is_nil fst].
  destruct (as_Resp resp) as [[c l]|]; [destruct (c =? 0)%Z|]; cbn [negb];
    (destruct (as_RespCType resp) as [[ctype data]|];
     [reflexivity|
      match goal with |- context [output ?a ?b ?c ?d] => by destruct (output a b c d) end]).
Qed.

Lemma shaped_writer_Location (resp : iface U) (w : ResponseWriter) :
  rw_header (shaped_writer order resp w) !! "Location" =
  match as_Resp resp with
  | Some (c, l) =>
      if (c =? 0)%Z || String.eqb l EmptyString then rw_header w !! "Location"
      else Some (default [] (rw_header w !! "Location") ++ [l])%list
  | None => rw_header w !! "Location"
  end.
Proof.
  rewrite shaped_writer_header. unfold shaped_location.
  destruct (as_Resp resp) as [[c l]|]; [|reflexivity].
  destruct (c =? 0)%Z; [reflexivity|]. cbn [orb].
  destruct (String.eqb l EmptyString); [reflexivity|]. cbn [negb].
  by rewrite lookup_insert_eq.
Qed.

(** Headers other than [Content-Type] are those of the shaped writer. *)
Lemma handler_success_header (fn : Controller) (w : ResponseWriter) (r : Request)
    (p : list (string * string)) (resp : iface U) (key : string) :
  fn r {| httprouter_Params := p |} = (resp, inil) →
  key ≠ "Content-Type" →
  rw_header (handler order fn w r p).1 !! key
  = rw_header (shaped_writer order resp w) !! key.
Proof.
  intros Hfn Hkey. rewrite (handler_success order fn w r p resp Hfn).
  destruct (as_RespCType resp) as [[ctype data]|].
  - unfold outputContentType. cbn [fst]. autorewrite with writer. cbn.
    by rewrite lookup_insert_ne.
  - by rewrite output_header_lookup.
Qed.

(** X11.  Returning [NewError500()] as the error gives the same response as
    returning any error without a [StatusCode] method. *)
Theorem NewError500_as_error_is_generic (fn fn' : Controller) (w : ResponseWriter)
    (r : Request) (p : list (string * string)) (resp resp' err' : iface U) :
  fn r {| httprouter_Params := p |} = (resp, IError500 NewError500) →
  fn' r {| httprouter_Params := p |} = (resp', err') →
  is_nil err' = false →
  StatusCode_of err' = None →
  (handler order fn w r p).1 = (handler order fn' w r p).1.
Proof.
  intros Hfn Hfn' Hnil Hcap.
  rewrite (handler_error order fn w r p resp _ Hfn eq_refl).
  rewrite (handler_error order fn' w r p resp' err' Hfn' Hnil).
  unfold as_Error. by rewrite Hcap.
Qed.

(** X12.  On the error path the value returned beside the error is ignored,
    no cookie is emitted and no header other than [Content-Type] is
    touched, whatever methods the value or the error have. *)
Theorem handler_error_frame (fn : Controller) (w : ResponseWriter) (r : Request)
    (p : list (string * string)) (resp err : iface U) :
  fn r {| httprouter_Params := p |} = (resp, err) →
  is_nil err = false →
  rw_cookies (handler order fn w r p).1 = rw_cookies w
  ∧ delete "Content-Type" (rw_header (handler order fn w r p).1)
    = delete "Content-Type" (rw_header w)
  ∧ ∀ (fn' : Controller) (resp' : iface U),
      fn' r {| httprouter_Params := p |} = (resp', err) →
      handler order fn' w r p = handler order fn w r p.
Proof.
  intros Hfn Hnil. rewrite (handler_error order fn w r p resp err Hfn Hnil).
  split; [|split].
  - destruct (as_Error err); apply output_cookies.
  - destruct (as_Error err); apply output_headers.
  - intros fn' resp' Hfn'. unfold handler.
    destruct (getFormat r "Accept") as [outputFormat found].
    by rewrite Hfn, Hfn', Hnil.
Qed.

(** X13.  A success value with both [StatusCode] and [Location] methods
    whose status is not zero is answered with that status, whenever a body
    is written (a raw value, or one that serializes). *)
Theorem status_override (fn : Controller) (w : ResponseWriter) (r : Request)
    (p : list (string * string)) (resp : iface U) (c : Z) (l : string) :
  fn r {| httprouter_Params := p |} = (resp, inil) →
  as_Resp resp = Some (c, l) →
  c ≠ 0 →
  rw_status w = None →
  is_Some (as_RespCType resp)
  ∨ (∃ chunk, serializes (getFormat r "Accept").1 resp chunk) →
  rw_status (handler order fn w r p).1 = Some c.
Proof.
  intros Hfn Hresp Hc Hw Hbody.
  rewrite (handler_success order fn w r p resp Hfn).
  assert (Hst : shaped_status resp = c).
  { unfold shaped_status. rewrite Hresp. by apply Z.eqb_neq in Hc as ->. }
  assert (Hsw : rw_status (shaped_writer order resp w) = None)
    by (by rewrite shaped_writer_status).
  rewrite Hst. destruct (as_RespCType resp) as [[ctype data]|].
  - unfold outputContentType. cbn [fst]. autorewrite with writer. cbn. by rewrite Hsw.
  - destruct Hbody as [[? [=]]|[chunk Hser]].
    by destruct (output_status (shaped_writer order resp w) c resp _ chunk Hsw Hser).
Qed.

(** X14.  A success value without a [Location] method is not a [Resp]: its
    [StatusCode], whatever it returns, is not used; the response has status
    200 and no [Location] header is added. *)
Theorem StatusCode_without_Location_ignored (fn : Controller) (w : ResponseWriter)
    (r : Request) (p : list (string * string)) (resp : iface U) :
  fn r {| httprouter_Params := p |} = (resp, inil) →
  Location_of resp = None →
  rw_status w = None →
  status_sent (handler order fn w r p).1 = 200
  ∧ (is_Some (as_RespCType resp)
     ∨ (∃ chunk, serializes (getFormat r "Accept").1 resp chunk) →
     rw_status (handler order fn w r p).1 = Some 200)
  ∧ rw_header (handler order fn w r p).1 !! "Location" = rw_header w !! "Location".
Proof.
  intros Hfn Hloc Hw.
  assert (Hresp : as_Resp resp = None)
    by (unfold as_Resp; rewrite Hloc; by destruct (StatusCode_of resp)).
  rewrite (handler_success order fn w r p resp Hfn).
  assert (Hst : shaped_status resp = 200) by (unfold shaped_status; by rewrite Hresp).
  assert (Hsw : rw_status (shaped_writer order resp w) = None)
    by (by rewrite shaped_writer_status).
  assert (Hhd : rw_header (shaped_writer order resp w) = rw_header w).
  { rewrite shaped_writer_header. unfold shaped_location. by rewrite Hresp. }
  rewrite Hst. destruct (as_RespCType resp) as [[ctype data]|].
  - unfold status_sent, outputContentType. cbn [fst]. autorewrite with writer. cbn.
    rewrite Hsw, Hhd, lookup_insert_ne by done. done.
  - rewrite output_header_lookup, Hhd by done. split; [|split; [|reflexivity]].
    + unfold status_sent.
      by destruct (output_status_cases (shaped_writer order resp w) 200 resp
                     (getFormat r "Accept").1 Hsw) as [-> | ->].
    + intros [[? [=]]|[chunk Hser]].
      by destruct (output_status (shaped_writer order resp w) 200 resp _ chunk Hsw Hser).
Qed.

(** X15.  The [Location] header of a success response: the value's location
    is appended to the header when the value is a [Resp] with a status
    other than zero and a location other than the empty string; in every
    other case the header is left as it was. *)
Theorem Location_header_rule (fn : Controller) (w : ResponseWriter) (r : Request)
    (p : list (string * string)) (resp : iface U) :
  fn r {| httprouter_Params := p |} = (resp, inil) →
  rw_header (handler order fn w r p).1 !! "Location" =
  match as_Resp resp with
  | Some (c, l) =>
      if (c =? 0)%Z || String.eqb l EmptyString then rw_header w !! "Location"
      else Some (default [] (rw_header w !! "Location") ++ [l])%list
  | None => rw_header w !! "Location"
  end.
Proof.
  intros Hfn. rewrite (handler_success_header fn w r p resp "Location" Hfn) by done.
  apply shaped_writer_Location.
Qed.

(** X16.  A [MakeRedirect(code, location)] value sets no cookie; with a code
    other than zero and a location other than the empty string it appends
    [location] to the [Location] header and is answered with [code] when
    its body is written; with code zero (or an empty location) no
    [Location] header is added, and code zero is answered with 200. *)
Theorem MakeRedirect_response (fn : Controller) (w : ResponseWriter) (r : Request)
    (p : list (string * string)) (code : Z) (location : string) :
  fn r {| httprouter_Params := p |} = (IRedirect (MakeRedirect code location), inil) →
  rw_status w = None →
  rw_cookies (handler order fn w r p).1 = rw_cookies w
  ∧ (code ≠ 0 → location ≠ EmptyString →
     rw_header (handler order fn w r p).1 !! "Location"
     = Some (default [] (rw_header w !! "Location") ++ [location])%list)
  ∧ (code = 0 ∨ location = EmptyString →
     rw_header (handler order fn w r p).1 !! "Location" = rw_header w !! "Location")
  ∧ (∀ chunk,
       serializes (getFormat r "Accept").1 (IRedirect (MakeRedirect code location)) chunk →
       rw_status (handler order fn w r p).1 = Some (if (code =? 0)%Z then 200 else code)).
Proof.
  intros Hfn Hw.
  pose proof (handler_success_cookies order fn w r p _ Hfn) as Hck.
  pose proof (handler_success_header fn w r p _ "Location" Hfn) as Hloc.
  rewrite shaped_writer_Location in Hloc by done.
  cbn in Hck, Hloc. rewrite app_nil_r in Hck. specialize (Hloc ltac:(done)).
  split; [exact Hck|]. split; [|split].
  - intros Hc Hl. rewrite Hloc.
    apply Z.eqb_neq in Hc as ->. by apply String.eqb_neq in Hl as ->.
  - intros [-> | ->]; rewrite Hloc; [reflexivity|].
    by destruct (code =? 0)%Z.
  - intros chunk Hser. rewrite (handler_success order fn w r p _ Hfn).
    change (as_RespCType (IRedirect (MakeRedirect code location)))
      with (@None (string * list byte)).
    assert (Hst : shaped_status (IRedirect (MakeRedirect code location))
                  = if (code =? 0)%Z then 200 else code) by reflexivity.
    assert (Hsw : rw_status (shaped_writer order (IRedirect (MakeRedirect code location)) w)
                  = None) by (by rewrite shaped_writer_status).
    rewrite Hst.
    by destruct (output_status _ (if (code =? 0)%Z then 200 else code)
                   (IRedirect (MakeRedirect code location)) _ chunk Hsw Hser) as [-> _].
Qed.
End HandlerMore.

(** ** Cookies *)

(** X17.  [SetCookie] followed by [GetCookies]: the map is allocated when it
    was nil, the name maps to the value, every other name is as before; and
    [UnsetCookie] is [SetCookie] with the empty string. *)
Theorem SetCookie_GetCookies (cs : CookieSetter) (name value : string) :
  (∃ m, GetCookies (SetCookie cs name value) = Some m
        ∧ m !! name = Some value
        ∧ ∀ other, other ≠ name → m !! other = default ∅ (GetCookies cs) !! other)
  ∧ UnsetCookie cs name = SetCookie cs name EmptyString.
Proof.
  split; [|reflexivity].
  unfold GetCookies, SetCookie. cbn. eexists. split; [reflexivity|]. split.
  - apply lookup_insert_eq.
  - intros other Hne. rewrite lookup_insert_ne by done. by destruct (Cookies cs).
Qed.

Section CookiesMore.
Context {U : Type} `{Methods U} `{Codec U}.
Variable order : MapRange.

Lemma emitted_names (cookies : gmap string string) :
  Name <$> (cookie_for cookies <$> (range_of order cookies).*1)
  = (range_of order cookies).*1.
Proof.
  rewrite <- list_fmap_compose. etransitivity; [|apply list_fmap_id].
  apply list_fmap_ext. intros ? name _. apply cookie_for_Name.
Qed.

(** For an entry of the map, the cookie of that name is emitted, and it is
    the only one of that name. *)
Lemma emitted_for_name (fn : Controller) (w : ResponseWriter) (r : Request)
    (p : list (string * string)) (resp : iface U)
    (cookies : gmap string string) (name value : string) :
  fn r {| httprouter_Params := p |} = (resp, inil) →
  as_ICookieSetter resp = Some (Some cookies) →
  cookies !! name = Some value →
  rw_cookies w = [] →
  cookie_for cookies name ∈ rw_cookies (handler order fn w r p).1
  ∧ ∀ c, c ∈ rw_cookies (handler order fn w r p).1 → Name c = name →
         c = cookie_for cookies name.
Proof.
  intros Hfn Hcs Hlook Hw.
  rewrite (handler_success_cookies order fn w r p resp Hfn), Hw.
  unfold emitted_cookies. rewrite Hcs. cbn [app]. split.
  - apply list_elem_of_fmap_2. by apply (range_visits order cookies name value).
  - intros c Hin Hname. apply list_elem_of_fmap in Hin as (n & -> & _).
    rewrite cookie_for_Name in Hname. by subst n.
Qed.

(** X18.  A success value with a cookie map gets exactly one cookie per
    entry: the names of the cookies emitted are the keys of the map, each
    once, in the order of the range. *)
Theorem cookies_one_per_entry (fn : Controller) (w : ResponseWriter) (r : Request)
    (p : list (string * string)) (resp : iface U) (cookies : gmap string string) :
  fn r {| httprouter_Params := p |} = (resp, inil) →
  as_ICookieSetter resp = Some (Some cookies) →
  rw_cookies w = [] →
  Name <$> rw_cookies (handler order fn w r p).1 ≡ₚ (map_to_list cookies).*1
  ∧ NoDup (Name <$> rw_cookies (handler order fn w r p).1)
  ∧ length (rw_cookies (handler order fn w r p).1) = size cookies.
Proof.
  intros Hfn Hcs Hw.
  rewrite (handler_success_cookies order fn w r p resp Hfn), Hw.
  unfold emitted_cookies. rewrite Hcs. cbn [app].
  rewrite emitted_names, !length_fmap.
  assert (Hperm : (range_of order cookies).*1 ≡ₚ (map_to_list cookies).*1)
    by (by rewrite (range_perm order)).
  split; [exact Hperm|]. split.
  - rewrite Hperm. apply NoDup_fst_map_to_list.
  - rewrite (range_perm order). apply length_map_to_list.
Qed.

(** X19.  No cookie is emitted for a success value without [GetCookies],
    with a nil cookie map, or with an empty one. *)
Theorem no_cookie_map_no_cookies (fn : Controller) (w : ResponseWriter) (r : Request)
    (p : list (string * string)) (resp : iface U) :
  fn r {| httprouter_Params := p |} = (resp, inil) →
  as_ICookieSetter resp = None ∨ as_ICookieSetter resp = Some None
  ∨ as_ICookieSetter resp = Some (Some ∅) →
  rw_cookies (handler order fn w r p).1 = rw_cookies w.
Proof.
  intros Hfn Hcs. rewrite (handler_success_cookies order fn w r p resp Hfn).
  unfold emitted_cookies.
  destruct Hcs as [-> | [-> | ->]]; rewrite ?app_nil_r; try reflexivity.
  pose proof (range_perm order _ (∅ : gmap string string)) as Hperm.
  rewrite map_to_list_empty in Hperm. apply Permutation_nil_r in Hperm.
  rewrite Hperm. cbn. by rewrite app_nil_r.
Qed.

(** X20.  After [UnsetCookie(name)] the response carries, for that name, the
    deletion cookie (value "nil", path "/", max-age -1) and no other
    cookie, whatever was set for the name before. *)
Theorem UnsetCookie_deletes (fn : Controller) (w : ResponseWriter) (r : Request)
    (p : list (string * string)) (resp : iface U) (cs : CookieSetter) (name : string) :
  fn r {| httprouter_Params := p |} = (resp, inil) →
  as_ICookieSetter resp = Some (GetCookies (UnsetCookie cs name)) →
  rw_cookies w = [] →
  {| Name := name; Value := "nil"; Path := "/"; MaxAge := -1 |}
  ∈ rw_cookies (handler order fn w r p).1
  ∧ ∀ c, c ∈ rw_cookies (handler order fn w r p).1 → Name c = name →
         c = {| Name := name; Value := "nil"; Path := "/"; MaxAge := -1 |}.
Proof.
  intros Hfn Hcs Hw.
  set (m := <[name := EmptyString]> (match Cookies cs with None => ∅ | Some m => m end)).
  assert (Hlook : m !! name = Some EmptyString) by apply lookup_insert_eq.
  rewrite <- (cookie_for_empty m name Hlook).
  exact (emitted_for_name fn w r p resp m name EmptyString Hfn Hcs Hlook Hw).
Qed.

(** X21.  After [SetCookie(name, value)] with a value other than the empty
    string the response carries, for that name, the cookie with that
    value, path "/" and max-age 86400, and no other cookie, whatever was
    set or unset for the name before. *)
Theorem SetCookie_last_wins (fn : Controller) (w : ResponseWriter) (r : Request)
    (p : list (string * string)) (resp : iface U) (cs : CookieSetter)
    (name value : string) :
  fn r {| httprouter_Params := p |} = (resp, inil) →
  as_ICookieSetter resp = Some (GetCookies (SetCookie cs name value)) →
  value ≠ EmptyString →
  rw_cookies w = [] →
  {| Name := name; Value := value; Path := "/"; MaxAge := 86400 |}
  ∈ rw_cookies (handler order fn w r p).1
  ∧ ∀ c, c ∈ rw_cookies (handler order fn w r p).1 → Name c = name →
         c = {| Name := name; Value := value; Path := "/"; MaxAge := 86400 |}.
Proof.
  intros Hfn Hcs Hne Hw.
  set (m := <[name := value]> (match Cookies cs with None => ∅ | Some m => m end)).
  assert (Hlook : m !! name = Some value) by apply lookup_insert_eq.
  rewrite <- (cookie_for_nonempty m name value Hlook Hne).
  exact (emitted_for_name fn w r p resp m name value Hfn Hcs Hlook Hw).
Qed.
End CookiesMore.

(** ** The encoded success response, and the earlier handler *)

Section EncodeMore.
Context {U : Type} `{Methods U} `{Codec U}.
Variable order : MapRange.


(** X23.  When [Accept] negotiates FORM and the success value has no raw
    methods, the cookies and the [Location] header are emitted all the
    same, no status and no body are written, and the failure is logged as
    "error while writing data: unknown output format". *)
Theorem effects_precede_failed_encode (fn : Controller) (w : ResponseWriter)
    (r : Request) (p : list (string * string)) (resp : iface U) :
  fn r {| httprouter_Params := p |} = (resp, inil) →
  as_RespCType resp = None →
  (getFormat r "Accept").1 = formatFORM →
  rw_status (handler order fn w r p).1 = rw_status w
  ∧ rw_body (handler order fn w r p).1 = rw_body w
  ∧ rw_cookies (handler order fn w r p).1
    = (rw_cookies w ++ emitted_cookies order resp)%list
  ∧ rw_header (handler order fn w r p).1 !! "Location"
    = match as_Resp resp with
      | Some (c, l) =>
          if (c =? 0)%Z || String.eqb l EmptyString then rw_header w !! "Location"
          else Some (default [] (rw_header w !! "Location") ++ [l])%list
      | None => rw_header w !! "Location"
      end
  ∧ (handler order fn w r p).2 = ["error while writing data: unknown output format"].
Proof.
  intros Hfn Hraw Hform.
  rewrite (handler_success_full order fn w r p resp Hfn), Hraw, Hform.
  cbn zeta. rewrite output_FORM. cbn [fst snd log_write_failure].
  rewrite shaped_writer_status, shaped_writer_body, shaped_writer_cookies.
  rewrite (shaped_writer_Location order). done.
Qed.

Lemma Rev1_handler_error (fn : Controller) (w : ResponseWriter) (r : Request)
    (p : list (string * string)) (resp err : iface U) :
  fn r {| httprouter_Params := p |} = (resp, err) →
  is_nil err = false →
  (Rev1.handler fn w r p).1 = (handler order fn w r p).1.
Proof.
  intros Hfn Hnil. rewrite (handler_error order fn w r p resp err Hfn Hnil).
  unfold Rev1.handler. destruct (getFormat r "Accept") as [outputFormat found].
  rewrite Hfn, Hnil. cbn [negb fst].
  destruct (as_Error err) as [status|].
  - by destruct (output w status err outputFormat).
  - by destruct (output w 500 (IError500 NewError500) outputFormat).
Qed.

Lemma Rev1_handler_success (fn : Controller) (w : ResponseWriter) (r : Request)
    (p : list (string * string)) (resp : iface U) :
  fn r {| httprouter_Params := p |} = (resp, inil) →
  (Rev1.handler fn w r p).1
  = (output w (default 200 (StatusCode_of resp)) resp (getFormat r "Accept").1).1.
Proof.
  intros Hfn. unfold Rev1.handler.
  destruct (getFormat r "Accept") as [outputFormat found].
  rewrite Hfn. cbn [negb is_nil fst].
  destruct (StatusCode_of resp) as [c|]; cbn -[output];
    match goal with |- context [output ?a ?b ?c ?d] => by destruct (output a b c d) end.
Qed.

(** X24.  The current handler writes what the earlier one wrote on every
    error, and on every success value that has none of [StatusCode],
    [GetCookies] and the raw methods. *)
Theorem Rev1_handler_agrees (fn : Controller) (w : ResponseWriter) (r : Request)
    (p : list (string * string)) (resp err : iface U) :
  fn r {| httprouter_Params := p |} = (resp, err) →
  is_nil err = false
  ∨ (err = inil ∧ StatusCode_of resp = None ∧ as_ICookieSetter resp = None
     ∧ as_RespCType resp = None) →
  (handler order fn w r p).1 = (Rev1.handler fn w r p).1.
Proof.
  intros Hfn [Hnil|(-> & Hst & Hcs & Hraw)].
  - symmetry. by apply (Rev1_handler_error fn w r p resp err).
  - rewrite (Rev1_handler_success fn w r p resp Hfn), Hst.
    rewrite (handler_success order fn w r p resp Hfn), Hraw.
    unfold shaped_writer, shaped_status, shaped_location, as_Resp.
    by rewrite Hst, Hcs.
Qed.

(** X25.  A success value with a [StatusCode] method and no [Location]
    method (as [TestRet] of test/main.go) that serializes: the earlier
    handler answered with the value's status, zero included; the current
    one answers 200. *)
Theorem StatusCode_only_changed (fn : Controller) (w : ResponseWriter) (r : Request)
    (p : list (string * string)) (resp : iface U) (c : Z) (chunk : list byte) :
  fn r {| httprouter_Params := p |} = (resp, inil) →
  StatusCode_of resp = Some c →
  Location_of resp = None →
  as_RespCType resp = None →
  rw_status w = None →
  serializes (getFormat r "Accept").1 resp chunk →
  rw_status (Rev1.handler fn w r p).1 = Some c
  ∧ rw_status (handler order fn w r p).1 = Some 200.
Proof.
  intros Hfn Hst Hloc Hraw Hw Hser. split.
  - rewrite (Rev1_handler_success fn w r p resp Hfn), Hst.
    by destruct (output_status w c resp _ chunk Hw Hser).
  - rewrite (handler_success order fn w r p resp Hfn), Hraw.
    assert (Hsh : shaped_status resp = 200)
      by (unfold shaped_status, as_Resp; by rewrite Hst, Hloc).
    assert (Hsw : rw_status (shaped_writer order resp w) = None)
      by (by rewrite shaped_writer_status).
    rewrite Hsh.
    by destruct (output_status (shaped_writer order resp w) 200 resp _ chunk Hsw Hser).
Qed.
End EncodeMore.

(** ** test/main.go through the adapter *)

Module TestProgram.
Import Sample Fixtures.

Lemma Caller_serializes (format : Z) (v : iface Caller) :
  format = formatJSON ∨ format = formatXML →
  ∃ chunk, serializes format v chunk.
Proof.
  intros [-> | ->].
  - exists (list_byte_of_string (render_json v)). by left.
  - exists (list_byte_of_string (render_xml v)). by right.
Qed.

End TestProgram.

(** * The further properties on concrete requests *)

Module Coverage.
Import Sample Fixtures.

Lemma getFormat_first_recognized_witness :
  getFormat (request ["text/html"; "application/xml"; "application/json"] [] []) "Accept"
  = (formatXML, true).
Proof.
  pose proof (getFormat_first_recognized
                (request ["text/html"; "application/xml"; "application/json"] [] [])
                "Accept" ["text/html"] ["application/json"] "application/xml") as Hthm.
  destruct Hthm as (Hfmt & _).
  - reflexivity.
  - repeat constructor.
  - reflexivity.
  - exact Hfmt.
Defined.

Lemma Parse_read_failure_witness :
  Parse (U:=Caller) sorted_range broken_request record_ptr
  = (record_ptr, IError500 {| Message := "failed to read body" |}).
Proof.
  apply (Parse_read_failure (U:=Caller) sorted_range broken_request record_ptr
           "unexpected EOF").
  - left. reflexivity.
  - reflexivity.
Defined.

Lemma Parse_form_not_pointer_witness :
  Parse (U:=Caller) sorted_range form_request record_value
  = (record_value,
     IError500 {| Message := "failed to parse body: Cannot parse form to non-pointer types" |}).
Proof.
  apply (Parse_form_not_pointer (U:=Caller) sorted_range form_request record_value);
    reflexivity.
Defined.

(** An int field and an empty value list: nothing is set. *)
Lemma parseForm_skips_unsettable_witness :
  parseForm sorted_range (<["code" := ["7"]]> (<["none" := []]> ∅)) record_ptr
  = (record_ptr, None).
Proof.
  apply (parseForm_skips_unsettable sorted_range
           (<["code" := ["7"]]> (<["none" := []]> ∅)) record_ptr).
  - reflexivity.
  - intros k vs Hlook.
    apply lookup_insert_Some in Hlook as [[<- <-]|[_ Hlook]]; [right; reflexivity|].
    apply lookup_insert_Some in Hlook as [[<- <-]|[_ Hlook]]; [left; reflexivity|].
    rewrite lookup_empty in Hlook. discriminate Hlook.
Defined.


Lemma Parse_ignores_Accept_witness :
  Parse (U:=Caller) sorted_range
    (request ["application/xml"] ["application/json"] (list_byte_of_string "{}"))
    record_ptr
  = Parse (U:=Caller) sorted_range
      (request [] ["application/json"] (list_byte_of_string "{}")) record_ptr.
Proof.
  apply (Parse_ignores_Accept (U:=Caller) sorted_range
           (request ["application/xml"] ["application/json"] (list_byte_of_string "{}"))
           (request [] ["application/json"] (list_byte_of_string "{}"))
           record_ptr formatJSON).
  - reflexivity.
  - reflexivity.
  - discriminate.
  - reflexivity.
Defined.

Lemma Rev0_Parse_unsupported_content_type_witness :
  Rev0.Parse (U:=Caller) form_request record_ptr
  = (record_ptr,
     IError500 {| Message := "unsupported Content-Type: application/x-www-form-urlencoded" |}).
Proof.
  apply (Rev0_Parse_unsupported_content_type (U:=Caller) form_request record_ptr
           "application/x-www-form-urlencoded" []).
  - reflexivity.
  - repeat constructor; discriminate.
Defined.

Lemma NewError500_as_error_is_generic_witness :
  (handler sorted_range (fail_with (IError500 NewError500)) NewWriter json_request []).1
  = (handler sorted_range (fail_with (IerrorString "boom")) NewWriter json_request []).1.
Proof.
  apply (NewError500_as_error_is_generic (U:=Caller) sorted_range
           (fail_with (IError500 NewError500)) (fail_with (IerrorString "boom"))
           NewWriter json_request [] inil inil (IerrorString "boom")); reflexivity.
Defined.

Lemma handler_error_frame_witness :
  rw_cookies (handler sorted_range (fun _ _ => (IRedirect moved, oops)) NewWriter
                json_request []).1 = [].
Proof.
  pose proof (handler_error_frame (U:=Caller) sorted_range
                (fun _ _ => (IRedirect moved, oops)) NewWriter json_request []
                (IRedirect moved) oops) as Hthm.
  destruct Hthm as (Hcookies & _).
  - reflexivity.
  - reflexivity.
  - exact Hcookies.
Defined.

Lemma status_override_witness :
  rw_status (handler sorted_range (reply (IRedirect moved)) NewWriter json_request []).1
  = Some 302.
Proof.
  apply (status_override (U:=Caller) sorted_range (reply (IRedirect moved)) NewWriter
           json_request [] (IRedirect moved) 302 "/next").
  - reflexivity.
  - reflexivity.
  - discriminate.
  - reflexivity.
  - right. exists (list_byte_of_string "{}"). left. split; reflexivity.
Defined.

Lemma StatusCode_without_Location_ignored_witness :
  StatusCode_of not_found = Some 404
  ∧ status_sent (handler sorted_range (reply not_found) NewWriter json_request []).1 = 200.
Proof.
  split; [reflexivity|].
  pose proof (StatusCode_without_Location_ignored (U:=Caller) sorted_range
                (reply not_found) NewWriter json_request [] not_found) as Hthm.
  destruct Hthm as (Hsent & _).
  - reflexivity.
  - reflexivity.
  - reflexivity.
  - exact Hsent.
Defined.

Lemma Location_header_rule_witness :
  rw_header (handler sorted_range (reply (IRedirect moved)) NewWriter json_request []).1
    !! "Location" = Some ["/next"].
Proof.
  apply (Location_header_rule (U:=Caller) sorted_range (reply (IRedirect moved)) NewWriter
           json_request [] (IRedirect moved)).
  reflexivity.
Defined.

Lemma MakeRedirect_response_witness :
  let w := (handler sorted_range (reply (IRedirect (MakeRedirect 301 "/new"))) NewWriter
              json_request []).1 in
  rw_cookies w = [] ∧ rw_header w !! "Location" = Some ["/new"] ∧ rw_status w = Some 301.
Proof.
  pose proof (MakeRedirect_response (U:=Caller) sorted_range
                (reply (IRedirect (MakeRedirect 301 "/new"))) NewWriter json_request []
                301 "/new") as Hthm.
  destruct Hthm as (Hcookies & Hloc & _ & Hstatus).
  - reflexivity.
  - reflexivity.
  - split; [exact Hcookies|]. split.
    + apply Hloc; discriminate.
    + apply (Hstatus (list_byte_of_string "{}")). left. split; reflexivity.
Defined.

Lemma cookies_one_per_entry_witness :
  length (rw_cookies (handler sorted_range (reply (IRedirect moved)) NewWriter
                        json_request []).1) = 2%nat.
Proof.
  pose proof (cookies_one_per_entry (U:=Caller) sorted_range (reply (IRedirect moved))
                NewWriter json_request [] (IRedirect moved) session_cookies) as Hthm.
  destruct Hthm as (_ & _ & Hlen).
  - reflexivity.
  - reflexivity.
  - reflexivity.
  - exact Hlen.
Defined.

Lemma no_cookie_map_no_cookies_witness :
  rw_cookies (handler sorted_range (reply (IRedirect (MakeRedirect 301 "/new"))) NewWriter
                json_request []).1 = [].
Proof.
  apply (no_cookie_map_no_cookies (U:=Caller) sorted_range
           (reply (IRedirect (MakeRedirect 301 "/new"))) NewWriter json_request []
           (IRedirect (MakeRedirect 301 "/new"))).
  - reflexivity.
  - right. left. reflexivity.
Defined.

Lemma UnsetCookie_deletes_witness :
  {| Name := "sid"; Value := "nil"; Path := "/"; MaxAge := -1 |}
  ∈ rw_cookies (handler sorted_range
                  (reply (ICookies (UnsetCookie
                                      (SetCookie {| Cookies := None |} "sid" "abc") "sid")))
                  NewWriter json_request []).1.
Proof.
  pose proof (UnsetCookie_deletes (U:=Caller) sorted_range
                (reply (ICookies (UnsetCookie
                                    (SetCookie {| Cookies := None |} "sid" "abc") "sid")))
                NewWriter json_request []
                (ICookies (UnsetCookie (SetCookie {| Cookies := None |} "sid" "abc") "sid"))
                (SetCookie {| Cookies := None |} "sid" "abc") "sid") as Hthm.
  destruct Hthm as (Hin & _).
  - reflexivity.
  - reflexivity.
  - reflexivity.
  - exact Hin.
Defined.

Lemma SetCookie_last_wins_witness :
  {| Name := "sid"; Value := "abc"; Path := "/"; MaxAge := 86400 |}
  ∈ rw_cookies (handler sorted_range
                  (reply (ICookies (SetCookie
                                      (UnsetCookie {| Cookies := None |} "sid") "sid" "abc")))
                  NewWriter json_request []).1.
Proof.
  pose proof (SetCookie_last_wins (U:=Caller) sorted_range
                (reply (ICookies (SetCookie
                                    (UnsetCookie {| Cookies := None |} "sid") "sid" "abc")))
                NewWriter json_request []
                (ICookies (SetCookie (UnsetCookie {| Cookies := None |} "sid") "sid" "abc"))
                (UnsetCookie {| Cookies := None |} "sid") "sid" "abc") as Hthm.
  destruct Hthm as (Hin & _).
  - reflexivity.
  - reflexivity.
  - discriminate.
  - reflexivity.
  - exact Hin.
Defined.


Lemma effects_precede_failed_encode_witness :
  let w := (handler sorted_range (reply (IRedirect moved)) NewWriter
              form_accept_request []).1 in
  rw_status w = None
  ∧ length (rw_cookies w) = 2%nat
  ∧ rw_header w !! "Location" = Some ["/next"].
Proof.
  pose proof (effects_precede_failed_encode (U:=Caller) sorted_range
                (reply (IRedirect moved)) NewWriter form_accept_request []
                (IRedirect moved)) as Hthm.
  destruct Hthm as (Hstatus & _ & Hcookies & Hloc & _).
  - reflexivity.
  - reflexivity.
  - reflexivity.
  - split; [exact Hstatus|]. split; [by rewrite Hcookies|exact Hloc].
Defined.

Lemma Rev1_handler_agrees_witness :
  (handler sorted_range (fail_with oops) NewWriter json_request []).1
  = (Rev1.handler (fail_with oops) NewWriter json_request []).1.
Proof.
  apply (Rev1_handler_agrees (U:=Caller) sorted_range (fail_with oops) NewWriter
           json_request [] inil oops).
  - reflexivity.
  - left. reflexivity.
Defined.

Lemma StatusCode_only_changed_witness :
  rw_status (Rev1.handler (reply not_found) NewWriter json_request []).1 = Some 404
  ∧ rw_status (handler sorted_range (reply not_found) NewWriter json_request []).1
    = Some 200.
Proof.
  apply (StatusCode_only_changed (U:=Caller) sorted_range (reply not_found) NewWriter
           json_request [] not_found 404
           (list_byte_of_string (render_json not_found))).
  - reflexivity.
  - reflexivity.
  - reflexivity.
  - reflexivity.
  - reflexivity.
  - left. split; reflexivity.
Defined.

End Coverage.
